(** * Research pipeline of [backend/main.py]: a shallow embedding

    The backend runs a two-node LangGraph chain (researcher, then writer)
    and forwards its progress to the client as server-sent events.  This
    file embeds the state record, the two nodes, the graph traversal and
    the event generator, and proves the properties of the event stream.

    Conventions.
    - A Python [str] is a list of Unicode code points ([pystr]).
    - Side effects (console prints, capability calls, yields of the
      generator, sleeps) are recorded in order in a trace; a computation
      returns either a value or a raised exception together with its trace.
    - The two module-level handles [search_tool] and [llm] are section
      variables: [None] when initialisation failed, otherwise the function
      from the argument of the call to its outcome.
    - The console is a section variable too, [stdout]: the function from
      a line to what [print] of that line does, return or raise. *)

From Stdlib Require Import List NArith ZArith String Ascii Bool Lia.
From Stdlib Require Import DecimalString.
Import ListNotations.

Set Implicit Arguments.
Set Warnings "-register-all".

(* ================================================================== *)
(** ** Python strings *)
(* ================================================================== *)

Module PyStr.

(** A [str] value: the sequence of its code points. *)
Definition pystr : Type := list N.

Definition bytes_of (s : string) : list N :=
  map N_of_ascii (list_ascii_of_string s).

(** Source literals are written in this file as they are in the Python
    source, that is UTF-8 encoded; [utf8_decode] turns the bytes of a
    literal into its code points. *)
Fixpoint utf8_decode (bs : list N) : pystr :=
  match bs with
  | [] => []
  | b0 :: r0 =>
    if (b0 <? 128)%N then b0 :: utf8_decode r0 else
    match r0 with
    | [] => []
    | b1 :: r1 =>
      if (b0 <? 224)%N then
        (N.lor (N.shiftl (N.land b0 31) 6) (N.land b1 63)) :: utf8_decode r1
      else
      match r1 with
      | [] => []
      | b2 :: r2 =>
        if (b0 <? 240)%N then
          (N.lor (N.shiftl (N.land b0 15) 12)
             (N.lor (N.shiftl (N.land b1 63) 6) (N.land b2 63)))
            :: utf8_decode r2
        else
        match r2 with
        | [] => []
        | b3 :: r3 =>
          (N.lor (N.shiftl (N.land b0 7) 18)
             (N.lor (N.shiftl (N.land b1 63) 12)
                (N.lor (N.shiftl (N.land b2 63) 6) (N.land b3 63))))
            :: utf8_decode r3
        end
      end
    end
  end.

Definition lit (s : string) : pystr := utf8_decode (bytes_of s).

(** Characters that cannot be written inside a literal here. *)
Definition dq : N := 34.         (* the double quote *)
Definition nl : N := 10.         (* "\n" *)
Definition bslash : N := 92.     (* the backslash *)

(** [bool(s)] of a string: non-empty strings are truthy. *)
Definition truthy (s : pystr) : bool :=
  match s with [] => false | _ :: _ => true end.

Definition eqb (a b : pystr) : bool :=
  if list_eq_dec N.eq_dec a b then true else false.

Fixpoint starts_with (p s : pystr) : bool :=
  match p, s with
  | [], _ => true
  | _ :: _, [] => false
  | a :: p', b :: s' => (a =? b)%N && starts_with p' s'
  end.

(** One lower-case hexadecimal digit, and the ['{0:04x}'] format. *)
Definition hex_digit (d : N) : N :=
  if (d <? 10)%N then (48 + d)%N else (87 + d)%N.

Definition hex4 (n : N) : pystr :=
  [ hex_digit (N.land (N.shiftr n 12) 15);
    hex_digit (N.land (N.shiftr n 8) 15);
    hex_digit (N.land (N.shiftr n 4) 15);
    hex_digit (N.land n 15) ].

(** [str(z)] of an integer. *)
Definition of_Z (z : Z) : pystr :=
  bytes_of (NilZero.string_of_int (Z.to_int z)).

End PyStr.
Import PyStr.

(** A source literal, decoded once and for all. *)
Notation "'py' s" :=
  (ltac:(let v := eval vm_compute in (lit s) in exact v))
  (at level 8, s at level 0, only parsing).

(* ================================================================== *)
(** ** [json.dumps] *)
(* ================================================================== *)

Module Json.

(** The values [json.dumps] serialises, as the encoder sees them:
    [None], booleans, integers, floats, strings, lists (a tuple is
    written as a list) and dictionaries.  A float is given by the text
    the encoder writes for it, which is [float.__repr__] of a finite
    float and [NaN], [Infinity] or [-Infinity] otherwise; a dictionary
    key by the string the encoder writes for it, which is the key itself
    when it is a string.  On these values the encoder is total.  On any
    other value (a set, an object, a cyclic list) [json.dumps] raises. *)
Inductive json : Type :=
| JNull
| JBool (b : bool)
| JInt (z : Z)
| JFloat (text : pystr)
| JStr (s : pystr)
| JList (l : list json)
| JDict (kv : list (pystr * json)).

(** The two-character escapes of the encoder's table ([ESCAPE_DCT]). *)
Definition short_escape (c : N) : option N :=
  if (c =? 92)%N then Some 92%N            (* backslash *)
  else if (c =? 34)%N then Some 34%N       (* double quote *)
  else if (c =? 8)%N then Some 98%N        (* \b *)
  else if (c =? 12)%N then Some 102%N      (* \f *)
  else if (c =? 10)%N then Some 110%N      (* \n *)
  else if (c =? 13)%N then Some 114%N      (* \r *)
  else if (c =? 9)%N then Some 116%N       (* \t *)
  else None.

Definition u_escape (n : N) : pystr := bslash :: 117%N :: hex4 n.

(** Escape of one code point; with [ensure_ascii] everything outside
    the printable ASCII range [' ' .. '~'] is escaped, code points above
    the basic plane as a surrogate pair; without it only the quote, the
    backslash and the control characters below 0x20 are. *)
Definition escape_char (ensure_ascii : bool) (c : N) : pystr :=
  match short_escape c with
  | Some x => [bslash; x]
  | None =>
    if (c <? 32)%N then u_escape c
    else if negb ensure_ascii then [c]
    else if (c <=? 126)%N then [c]
    else if (c <? 65536)%N then u_escape c
    else
      let n := (c - 65536)%N in
      let s1 := N.lor 55296 (N.land (N.shiftr n 10) 1023) in
      let s2 := N.lor 56320 (N.land n 1023) in
      u_escape s1 ++ u_escape s2
  end.

Definition encode_string (ensure_ascii : bool) (s : pystr) : pystr :=
  dq :: flat_map (escape_char ensure_ascii) s ++ [dq].

(** Items joined with the default item separator [", "]. *)
Fixpoint join_items (items : list pystr) : pystr :=
  match items with
  | [] => []
  | [x] => x
  | x :: rest => x ++ py ", " ++ join_items rest
  end.

(** [json.dumps(v, ensure_ascii=...)] with the default separators. *)
Fixpoint dumps (ensure_ascii : bool) (v : json) : pystr :=
  match v with
  | JNull => py "null"
  | JBool true => py "true"
  | JBool false => py "false"
  | JInt z => of_Z z
  | JFloat text => text
  | JStr s => encode_string ensure_ascii s
  | JList l =>
    py "[" ++ join_items (map (dumps ensure_ascii) l) ++ py "]"
  | JDict kv =>
    py "{" ++
    join_items
      (map (fun p => encode_string ensure_ascii (fst p) ++ py ": "
                       ++ dumps ensure_ascii (snd p)) kv)
    ++ py "}"
  end.

End Json.
Import Json.

(* ================================================================== *)
(** ** Exceptions and effects *)
(* ================================================================== *)

(** An instance of a subclass of Python's [Exception], the class every
    handler of the program catches; [exn_str] is [str(e)].  Cancellation
    and interpreter exit are not of that class and are not modelled. *)
Record exn : Type := Exception { exn_class : string; exn_str : pystr }.

(** What a run does to the outside world, in the order it does it. *)
Inductive effect : Type :=
| Console (line : pystr)        (* print(...) on the server console *)
| SearchInvoke (query : pystr)  (* search_tool.invoke(query), off the loop *)
| LlmInvoke (prompt : pystr)    (* llm.ainvoke([HumanMessage(prompt)]) *)
| Yield (chunk : pystr)         (* a yield of the event generator *)
| Sleep (ms : N).               (* asyncio.sleep, in milliseconds *)

Inductive outcome (A : Type) : Type :=
| Ret (a : A)
| Raise (e : exn).
Arguments Ret {A} a.
Arguments Raise {A} e.

(** A computation: its outcome and the effects performed on the way. *)
Definition io (A : Type) : Type := (outcome A * list effect)%type.

Definition ret {A} (a : A) : io A := (Ret a, []).
Definition raise {A} (e : exn) : io A := (Raise e, []).

Definition bind {A B} (m : io A) (k : A -> io B) : io B :=
  match m with
  | (Ret a, t) => let (r, t') := k a in (r, t ++ t')
  | (Raise e, t) => (Raise e, t)
  end.

(** [try: m  except Exception as e: handler e] *)
Definition try_except {A} (m : io A) (handler : exn -> io A) : io A :=
  match m with
  | (Ret a, t) => (Ret a, t)
  | (Raise e, t) => let (r, t') := handler e in (r, t ++ t')
  end.

Definition perform (e : effect) : io unit := (Ret tt, [e]).

Declare Scope io_scope.
Delimit Scope io_scope with io.
Notation "x <- m ;; k" := (bind m (fun x => k))
  (at level 61, m at next level, right associativity) : io_scope.
Notation "m ;; k" := (bind m (fun _ => k))
  (at level 61, right associativity) : io_scope.
Open Scope io_scope.

(** [for x in l: body x] *)
Fixpoint for_each {A} (l : list A) (body : A -> io unit) : io unit :=
  match l with
  | [] => ret tt
  | x :: rest => body x ;; for_each rest body
  end.

Definition trace {A} (m : io A) : list effect := snd m.
Definition result {A} (m : io A) : outcome A := fst m.

(** The chunks a run hands to the transport, in order. *)
Fixpoint yielded (t : list effect) : list pystr :=
  match t with
  | [] => []
  | Yield c :: t' => c :: yielded t'
  | _ :: t' => yielded t'
  end.

(** The prompts the generation capability was invoked with. *)
Fixpoint llm_calls (t : list effect) : list pystr :=
  match t with
  | [] => []
  | LlmInvoke p :: t' => p :: llm_calls t'
  | _ :: t' => llm_calls t'
  end.

(** The queries the search capability was invoked with. *)
Fixpoint search_calls (t : list effect) : list pystr :=
  match t with
  | [] => []
  | SearchInvoke q :: t' => q :: search_calls t'
  | _ :: t' => search_calls t'
  end.

(** What the stream adapter itself does: yields and sleeps. *)
Fixpoint adapter_view (t : list effect) : list effect :=
  match t with
  | [] => []
  | Yield c :: t' => Yield c :: adapter_view t'
  | Sleep ms :: t' => Sleep ms :: adapter_view t'
  | _ :: t' => adapter_view t'
  end.

(* ================================================================== *)
(** ** State *)
(* ================================================================== *)

(** [class AgentState(TypedDict)] *)
Record AgentState : Type := {
  topic : pystr;
  logs : list pystr;
  search_data : pystr;
  final_report : pystr
}.

(** The dictionary a node returns: the keys it wrote, and no others. *)
Record StageUpdate : Type := {
  upd_topic : option pystr;
  upd_logs : option (list pystr);
  upd_search_data : option pystr;
  upd_final_report : option pystr
}.

(** A key without annotation keeps the last value written to it. *)
Definition last_value {A} (old : A) (new : option A) : A :=
  match new with
  | Some v => v
  | None => old
  end.

(** A key annotated with a reducer folds each written value into the
    old one: [Annotated[List[str], operator.add]]. *)
Definition reduce {A} (op : A -> A -> A) (old : A) (new : option A) : A :=
  match new with
  | Some v => op old v
  | None => old
  end.

Definition operator_add (a b : list pystr) : list pystr := a ++ b.

(** The merge of a node's update into the running state.  The graph
    library does it, key by key as [AgentState] declares the keys: [logs]
    carries the reducer [operator.add], the three others carry none. *)
Definition merge (s : AgentState) (u : StageUpdate) : AgentState :=
  {| topic := last_value (topic s) (upd_topic u);
     logs := reduce operator_add (logs s) (upd_logs u);
     search_data := last_value (search_data s) (upd_search_data u);
     final_report := last_value (final_report s) (upd_final_report u) |}.

(* ================================================================== *)
(** ** The two agent nodes *)
(* ================================================================== *)

Section Nodes.

(** The console: what [print] of a line does.  [print] encodes the line
    for the console before it writes anything, and raises
    [UnicodeEncodeError] when the console's encoding has no code for one
    of its characters. *)
Variable stdout : pystr -> outcome unit.

(** The module-level handles.  [search_tool] is [None] when building the
    Tavily tool raised; [llm] stays [None] when the model key is missing
    or building the client raised.  An initialised handle is the function
    from the argument of a call to what the call does: return or raise.
    For the search tool the call is the tool's [invoke] followed by
    [json.dumps] of what it returned: [Ret results] when both return,
    [results] being the value serialised, [Raise e] when either raises
    (both stand in the same [try]). *)
Variable search_tool : option (pystr -> outcome json).
Variable llm : option (pystr -> outcome pystr).

(** [await asyncio.to_thread(tool.invoke, query)] *)
Definition invoke (tool : pystr -> outcome json) (query : pystr) : io json :=
  (tool query, [SearchInvoke query]).

(** [(await model.ainvoke([HumanMessage(content=prompt)])).content] *)
Definition ainvoke (model : pystr -> outcome pystr) (prompt : pystr)
  : io pystr :=
  (model prompt, [LlmInvoke prompt]).

Definition print (line : pystr) : io unit :=
  match stdout line with
  | Ret _ => perform (Console line)
  | Raise e => raise e
  end.

Definition research_node (state : AgentState) : io StageUpdate :=
  let topic := topic state in
  match search_tool with
  | None =>
    ret {| upd_topic := None;
           upd_logs := Some
             [py "❌ Error: Search tool not initialized (check TAVILY_API_KEY)"];
           upd_search_data := Some (py "No search data (tool failure)");
           upd_final_report := None |}
  | Some tool =>
    let log_start :=
      py "🕵️ Researcher: Searching Tavily for '" ++ topic ++ py "'..." in
    r <- try_except
           (print (py "🔍 Searching via Tavily: " ++ topic) ;;
            search_results <- invoke tool topic ;;
            let search_data := dumps false search_results in
            ret (log_start, search_data))
           (fun e =>
            print (py "⚠️ Search failed: " ++ exn_str e) ;;
            let log_start := py "⚠️ Search Error: " ++ exn_str e in
            let search_data := py "Search Failed: " ++ exn_str e in
            ret (log_start, search_data)) ;;
    let (log_start, search_data) := (r : pystr * pystr) in
    let log_end := py "✅ Researcher: Latest data retrieved." in
    ret {| upd_topic := None;
           upd_logs := Some [log_start; log_end];
           upd_search_data := Some search_data;
           upd_final_report := None |}
  end.

(** The prompt of the writer, an f-string over the topic and the raw
    search payload. *)
Definition writer_prompt (topic search_data : pystr) : pystr :=
  [nl] ++
  py "    You are a senior technical analyst. Please write a briefing on "
    ++ [dq] ++ topic ++ [dq]
    ++ py " based on the provided online search results." ++ [nl] ++
  [nl] ++
  py "    【Search Result Data】:" ++ [nl] ++
  py "    " ++ search_data ++ [nl] ++
  [nl] ++
  py "    【Requirements】:" ++ [nl] ++
  py "    1. Use Markdown format." ++ [nl] ++
  py "    2. Cite specific data or sources from the search results." ++ [nl] ++
  py "    3. Clear structure: Title, Executive Summary, Key Findings, Conclusion."
    ++ [nl] ++
  py "    4. Professional and objective tone." ++ [nl] ++
  py "    ".

Definition llm_not_running_report : pystr :=
  py "## System Error" ++ [nl] ++
  py "Cannot generate report because LLM initialization failed." ++ [nl] ++
  [nl] ++
  py "Please check backend console logs to confirm `GROQ_API_KEY` is set correctly.".

Definition writer_node (state : AgentState) : io StageUpdate :=
  match llm with
  | None =>
    ret {| upd_topic := None;
           upd_logs := Some [py "❌ Fatal Error: LLM is not running"];
           upd_search_data := None;
           upd_final_report := Some llm_not_running_report |}
  | Some model =>
    let topic := topic state in
    let search_data := search_data state in
    let log_start := py "✍️ Writer: Llama 3.3 is drafting the report..." in
    let prompt := writer_prompt topic search_data in
    report_content <-
      try_except
        (ainvoke model prompt)
        (fun e => ret (py "❌ LLM Call Failed: " ++ exn_str e)) ;;
    let log_end := py "✅ Writer: Report generated." in
    ret {| upd_topic := None;
           upd_logs := Some [log_start; log_end];
           upd_search_data := None;
           upd_final_report := Some report_content |}
  end.

End Nodes.

(* ================================================================== *)
(** ** The workflow graph *)
(* ================================================================== *)

Inductive target : Type :=
| Node (name : string)
| END.

Definition node_fn : Type := AgentState -> io StageUpdate.

(** [StateGraph(AgentState)] under construction. *)
Record StateGraph : Type := {
  nodes : list (string * node_fn);
  entry_point : target;
  edges : list (string * target)
}.

Definition empty_graph : StateGraph :=
  {| nodes := []; entry_point := END; edges := [] |}.

Definition add_node (name : string) (fn : node_fn) (g : StateGraph)
  : StateGraph :=
  {| nodes := nodes g ++ [(name, fn)];
     entry_point := entry_point g;
     edges := edges g |}.

Definition set_entry_point (name : string) (g : StateGraph) : StateGraph :=
  {| nodes := nodes g; entry_point := Node name; edges := edges g |}.

Definition add_edge (src : string) (dst : target) (g : StateGraph)
  : StateGraph :=
  {| nodes := nodes g;
     entry_point := entry_point g;
     edges := edges g ++ [(src, dst)] |}.

Fixpoint assoc {A} (k : string) (l : list (string * A)) : option A :=
  match l with
  | [] => None
  | (k', v) :: rest => if String.eqb k k' then Some v else assoc k rest
  end.

(** Where the traversal goes after a node; a node without an outgoing
    edge ends it. *)
Definition successor (g : StateGraph) (name : string) : target :=
  match assoc name (edges g) with
  | Some t => t
  | None => END
  end.

(** Errors of the orchestration library itself.  They are the library's,
    not this program's, and no run of the program's graph meets them. *)
Definition GraphRecursionError : exn :=
  Exception "GraphRecursionError"
    (py "Recursion limit reached without hitting a stop condition.").
Definition UnknownNodeError (name : string) : exn :=
  Exception "KeyError" (bytes_of name).

(** A bound on the number of steps of one run; the library has one, well
    above the two steps of this program. *)
Definition recursion_limit : nat := 25.

(** One item of the stream: the update of the node that just ran, keyed
    by the node's name. *)
Definition output : Type := list (string * StageUpdate).

(** [async for output in graph.astream(inputs): body output], from the
    node [cur] on.  It is written for the graph this program builds, a
    chain whose edges lead to its own nodes or to [END], shorter than the
    step bound, whose nodes return at least one key; what the library
    does with other graphs is not described here, and nothing below is
    stated of them.  The stream is lazy: a node runs when the consumer
    asks for the next item, its update is merged into the state, the item
    is handed to [body], and only then the successor runs.  An exception
    of a node or of [body] ends the loop and propagates. *)
Fixpoint astream_from (fuel : nat) (g : StateGraph) (cur : target)
    (state : AgentState) (body : output -> io unit) : io unit :=
  match cur with
  | END => ret tt
  | Node name =>
    match fuel with
    | O => raise GraphRecursionError
    | S fuel' =>
      match assoc name (nodes g) with
      | None => raise (UnknownNodeError name)
      | Some fn =>
        update <- fn state ;;
        body [(name, update)] ;;
        astream_from fuel' g (successor g name) (merge state update) body
      end
    end
  end.

Definition astream (g : StateGraph) (inputs : AgentState)
    (body : output -> io unit) : io unit :=
  astream_from recursion_limit g (entry_point g) inputs body.

(* ================================================================== *)
(** ** The event stream *)
(* ================================================================== *)

(** [f"data: {json.dumps({'type': ty, 'content': content})}\n\n"] *)
Definition sse_data (ty content : pystr) : pystr :=
  py "data: "
    ++ dumps true (JDict [(py "type", JStr ty); (py "content", JStr content)])
    ++ [nl; nl].

Definition sse_log (content : pystr) : pystr := sse_data (py "log") content.
Definition sse_report (content : pystr) : pystr :=
  sse_data (py "report") content.
Definition sse_done : pystr := py "data: [DONE]" ++ [nl; nl].

Definition yield (chunk : pystr) : io unit := perform (Yield chunk).

(** [await asyncio.sleep(0.1)] *)
Definition pacing_delay_ms : N := 100.
Definition sleep_pacing : io unit := perform (Sleep pacing_delay_ms).

Section Adapter.

(** The compiled graph the endpoint runs. *)
Variable app_graph : StateGraph.

(** The body of [for key, value in output.items()]. *)
Definition handle_value (value : StageUpdate) : io unit :=
  match upd_logs value with
  | Some value_logs =>
    for_each value_logs (fun log => yield (sse_log log) ;; sleep_pacing)
  | None => ret tt
  end ;;
  match upd_final_report value with
  | Some report =>
    if truthy report then yield (sse_report report) else ret tt
  | None => ret tt
  end.

Definition handle_output (out : output) : io unit :=
  for_each out (fun kv => handle_value (snd kv)).

Definition event_generator (topic : pystr) : io unit :=
  let inputs :=
    {| topic := topic; logs := []; search_data := []; final_report := [] |} in
  try_except
    (astream app_graph inputs handle_output)
    (fun e =>
       let err_msg := py "System Error: " ++ exn_str e in
       yield (sse_log err_msg)) ;;
  yield sse_done.

End Adapter.

(** The graph of the program, built by the calls the source makes, in
    their order; [app_graph = workflow.compile()] is this graph. *)
Definition workflow (stdout : pystr -> outcome unit)
    (search_tool : option (pystr -> outcome json))
    (llm : option (pystr -> outcome pystr)) : StateGraph :=
  add_edge "writer" END
    (add_edge "researcher" (Node "writer")
       (set_entry_point "researcher"
          (add_node "writer" (writer_node llm)
             (add_node "researcher" (research_node stdout search_tool)
                empty_graph)))).

(** [GET /api/run-research?topic=...]: the body of the streaming
    response, for given capability handles. *)
Definition run_research (stdout : pystr -> outcome unit)
    (search_tool : option (pystr -> outcome json))
    (llm : option (pystr -> outcome pystr)) (topic : pystr) : io unit :=
  event_generator (workflow stdout search_tool llm) topic.

(* ================================================================== *)
(** ** Start-up: the capability handles *)
(* ================================================================== *)

Section Startup.

Variable stdout : pystr -> outcome unit.

(** [os.getenv], after [load_dotenv()]. *)
Variable getenv : string -> option pystr.

(** What the two constructor calls do in this process: return a handle
    or raise. *)
Variable TavilySearchResults : outcome (pystr -> outcome json).
Variable ChatGroq : outcome (pystr -> outcome pystr).

(** [bool(os.getenv(name))]: an unset and an empty variable are falsy. *)
Definition env_set (name : string) : bool :=
  match getenv name with
  | Some v => truthy v
  | None => false
  end.

Definition construct {A} (call : outcome A) : io A := (call, []).

(** Section 1.A of the module: the search tool.  The name is bound by
    the last statement of the [try] or by the handler. *)
Definition init_search_tool : io (option (pystr -> outcome json)) :=
  try_except
    ((if negb (env_set "TAVILY_API_KEY") then
        print stdout (py "⚠️ Warning: TAVILY_API_KEY not found, search functionality will be unavailable")
      else ret tt) ;;
     search_tool <- construct TavilySearchResults ;;
     ret (Some search_tool))
    (fun e =>
       print stdout (py "❌ Tavily Init Error: " ++ exn_str e) ;;
       ret None).

(** The handler of section 1.B: it prints and leaves [llm] as it is. *)
Definition llm_init_error (llm : option (pystr -> outcome pystr)) (e : exn)
  : io (option (pystr -> outcome pystr)) :=
  print stdout (py "❌ LLM Init Error: " ++ exn_str e) ;;
  ret llm.

(** Section 1.B of the module: the model, [None] first.  The one [try]
    of the source is written out by the place an exception can come
    from, because the handler leaves [llm] at the value it has there:
    [None] up to and in the constructor call, the model once it is
    assigned and only the success line is left to print. *)
Definition init_llm : io (option (pystr -> outcome pystr)) :=
  let llm : option (pystr -> outcome pystr) := None in
  if negb (env_set "GROQ_API_KEY") then
    try_except
      (print stdout (py "🚨 Critical Error: GROQ_API_KEY not found, LLM cannot start! Please check .env file") ;;
       ret llm)
      (llm_init_error llm)
  else
    match ChatGroq with
    | Raise e => llm_init_error llm e
    | Ret model =>
      let llm := Some model in
      try_except
        (print stdout (py "✅ LLM (Groq Llama 3.3) initialized successfully") ;;
         ret llm)
        (llm_init_error llm)
    end.

(** The module body up to the handles, in source order. *)
Definition startup
  : io (option (pystr -> outcome json) * option (pystr -> outcome pystr)) :=
  search_tool <- init_search_tool ;;
  llm <- init_llm ;;
  ret (search_tool, llm).

End Startup.

(* ================================================================== *)
(** ** Transport events *)
(* ================================================================== *)

(** The three kinds of unit on the wire. *)
Inductive TransportEvent : Type :=
| Log (content : pystr)
| Report (content : pystr)
| Done.

Definition wire (ev : TransportEvent) : pystr :=
  match ev with
  | Log c => sse_log c
  | Report c => sse_report c
  | Done => sse_done
  end.

Inductive kind : Type := KLog | KReport | KDone.

Definition kind_of (ev : TransportEvent) : kind :=
  match ev with
  | Log _ => KLog
  | Report _ => KReport
  | Done => KDone
  end.

Definition kind_eqb (a b : kind) : bool :=
  match a, b with
  | KLog, KLog | KReport, KReport | KDone, KDone => true
  | _, _ => false
  end.

(** What a client reads off a chunk: the final line, or the value of the
    ["type"] member the payload starts with.  The texts compared with
    are the format's, written out. *)
Definition log_prefix : pystr :=
  py "data: {" ++ [dq] ++ py "type" ++ [dq] ++ py ": " ++ [dq] ++ py "log"
    ++ [dq].
Definition report_prefix : pystr :=
  py "data: {" ++ [dq] ++ py "type" ++ [dq] ++ py ": " ++ [dq] ++ py "report"
    ++ [dq].

Definition classify (chunk : pystr) : option kind :=
  if PyStr.eqb chunk (py "data: [DONE]" ++ [nl; nl]) then Some KDone
  else if starts_with log_prefix chunk then Some KLog
  else if starts_with report_prefix chunk then Some KReport
  else None.

Definition count_kind (k : kind) (chunks : list pystr) : nat :=
  List.length
    (filter (fun c => match classify c with
                      | Some k' => kind_eqb k k'
                      | None => false
                      end) chunks).

(** One or more logs, then one report, then the sentinel, and nothing
    after it. *)
Fixpoint logs_report_done (seen_log : bool) (ks : list (option kind)) : bool :=
  match ks with
  | Some KLog :: rest => logs_report_done true rest
  | [Some KReport; Some KDone] => seen_log
  | _ => false
  end.

(** Printable ASCII: what a payload written with [ensure_ascii] holds. *)
Definition printable (c : N) : bool := (32 <=? c)%N && (c <=? 126)%N.

(* ================================================================== *)
(** ** The messages of the program, by name *)
(* ================================================================== *)

Module Msg.

Definition search_start (topic : pystr) : pystr :=
  py "🕵️ Researcher: Searching Tavily for '" ++ topic ++ py "'...".
Definition search_end : pystr := py "✅ Researcher: Latest data retrieved.".
Definition search_error (detail : pystr) : pystr :=
  py "⚠️ Search Error: " ++ detail.
Definition search_failed (detail : pystr) : pystr :=
  py "Search Failed: " ++ detail.
Definition search_unavailable_log : pystr :=
  py "❌ Error: Search tool not initialized (check TAVILY_API_KEY)".
Definition search_unavailable : pystr := py "No search data (tool failure)".
Definition llm_unavailable_log : pystr :=
  py "❌ Fatal Error: LLM is not running".
Definition writer_start : pystr :=
  py "✍️ Writer: Llama 3.3 is drafting the report...".
Definition writer_end : pystr := py "✅ Writer: Report generated.".
Definition llm_call_failed (detail : pystr) : pystr :=
  py "❌ LLM Call Failed: " ++ detail.
Definition system_error (detail : pystr) : pystr :=
  py "System Error: " ++ detail.

(** The two lines the researcher prints on the console. *)
Definition searching_line (topic : pystr) : pystr :=
  py "🔍 Searching via Tavily: " ++ topic.
Definition search_failed_line (detail : pystr) : pystr :=
  py "⚠️ Search failed: " ++ detail.

End Msg.

(** The state a run starts from. *)
Definition initial_state (topic : pystr) : AgentState :=
  {| topic := topic; logs := []; search_data := []; final_report := [] |}.

(* ================================================================== *)
(** ** Consoles *)
(* ================================================================== *)

Module Console.

Definition is_surrogate (c : N) : bool := ((55296 <=? c) && (c <=? 57343))%N.

(** The length of the run of characters without a code that [s] starts
    with. *)
Fixpoint run_length (bad : N -> bool) (s : pystr) : N :=
  match s with
  | c :: r => if bad c then (1 + run_length bad r)%N else 0%N
  | [] => 0%N
  end.

(** The first run of characters without a code: where it starts, how
    long it is, and its first character. *)
Fixpoint find_run (bad : N -> bool) (pos : N) (s : pystr)
  : option (N * N * N) :=
  match s with
  | [] => None
  | c :: r =>
    if bad c then Some (pos, run_length bad s, c)
    else find_run bad (pos + 1) r
  end.

(** How the text of a [UnicodeEncodeError] names one character. *)
Definition char_escape (c : N) : pystr :=
  if (c <=? 255)%N then
    [bslash] ++ py "x"
      ++ [hex_digit (N.land (N.shiftr c 4) 15); hex_digit (N.land c 15)]
  else if (c <=? 65535)%N then [bslash] ++ py "u" ++ hex4 c
  else [bslash] ++ py "U" ++ hex4 (N.shiftr c 16) ++ hex4 c.

(** A console whose encoding [codec] has no code for the characters
    [bad], with strict error handling, which is Python's default for the
    standard output: [print] of a line that holds such a character
    raises before anything is written, and the exception names the first
    run of them. *)
Definition strict (codec reason : pystr) (bad : N -> bool) (line : pystr)
  : outcome unit :=
  match find_run bad 0 line with
  | None => Ret tt
  | Some (start, len, c) =>
    Raise
      (Exception "UnicodeEncodeError"
         (py "'" ++ codec ++ py "' codec can't encode "
            ++ (if (len =? 1)%N then
                  py "character '" ++ char_escape c ++ py "' in position "
                    ++ of_Z (Z.of_N start)
                else
                  py "characters in position " ++ of_Z (Z.of_N start)
                    ++ py "-" ++ of_Z (Z.of_N (start + len - 1)))
            ++ py ": " ++ reason))
  end.

(** A console in UTF-8: it takes every text but one that holds a
    surrogate code point. *)
Definition utf8 : pystr -> outcome unit :=
  strict (py "utf-8") (py "surrogates not allowed") is_surrogate.

(** A console in ASCII: it takes the code points below 128 only. *)
Definition ascii : pystr -> outcome unit :=
  strict (py "ascii") (py "ordinal not in range(128)")
    (fun c => (128 <=? c)%N).

End Console.

(* ================================================================== *)
(** ** The scenario of the specification, and variations *)
(* ================================================================== *)

Module Scenario.

Definition the_topic : pystr := py "quantum computing".

Definition results : json :=
  JList [JDict [(py "title", JStr (py "A"));
                (py "url", JStr (py "u1"));
               (py "snippet", JStr (py "s1"))]].

(** Results as the search provider returns them, with a score. *)
Definition scored_results : json :=
  JList [JDict [(py "url", JStr (py "https://example.org/q"));
                (py "content", JStr (py "Qubits"));
                (py "score", JFloat (py "0.98"))]].

Definition text : pystr := py "## Report" ++ [nl] ++ py "...".

Definition search_ok : pystr -> outcome json := fun _ => Ret results.
Definition search_scored : pystr -> outcome json :=
  fun _ => Ret scored_results.
Definition search_timeout : pystr -> outcome json :=
  fun _ => Raise (Exception "ConnectionError" (py "timeout")).
Definition llm_ok : pystr -> outcome pystr := fun _ => Ret text.
Definition llm_empty : pystr -> outcome pystr := fun _ => Ret [].
Definition llm_rate_limited : pystr -> outcome pystr :=
  fun _ => Raise (Exception "RateLimitError" (py "rate limit")).

(** A search failure whose text holds a lone surrogate, as a message
    taken from a JSON body does when the body holds the escape of an
    unpaired surrogate, which [json.loads] keeps as it is. *)
Definition unprintable : exn :=
  Exception "ValueError"
    (py "Search provider error: caf" ++ [56553%N]).
Definition search_unprintable : pystr -> outcome json :=
  fun _ => Raise unprintable.

(** What [print] raises on the UTF-8 console for the line the handler
    of the researcher prints about that failure. *)
Definition unprintable_error : exn :=
  Exception "UnicodeEncodeError"
    (py "'utf-8' codec can't encode character '" ++ [bslash]
       ++ py "udce9' in position 44: surrogates not allowed").

End Scenario.

(* ================================================================== *)
(** ** Vocabulary of the properties *)
(* ================================================================== *)

(** The update of the researcher, given its logs and its payload. *)
Definition research_update (ls : list pystr) (data : pystr) : StageUpdate :=
  {| upd_topic := None; upd_logs := Some ls;
     upd_search_data := Some data; upd_final_report := None |}.

(** The update of the writer, given its logs and its report. *)
Definition writer_update (ls : list pystr) (report : pystr) : StageUpdate :=
  {| upd_topic := None; upd_logs := Some ls;
     upd_search_data := None; upd_final_report := Some report |}.

Definition logs_of (value : StageUpdate) : list pystr :=
  match upd_logs value with
  | Some ls => ls
  | None => []
  end.

Definition report_of (value : StageUpdate) : list pystr :=
  match upd_final_report value with
  | Some r => if truthy r then [r] else []
  | None => []
  end.

(** The events of one update: its logs in order, then its report if it
    has a non-empty one. *)
Definition events_of (value : StageUpdate) : list TransportEvent :=
  map Log (logs_of value) ++ map Report (report_of value).

(** Each log is yielded and followed by the pacing delay. *)
Definition paced_logs (ls : list pystr) : list effect :=
  flat_map (fun l => [Yield (sse_log l); Sleep pacing_delay_ms]) ls.

Definition value_effects (value : StageUpdate) : list effect :=
  paced_logs (logs_of value)
    ++ map (fun r => Yield (sse_report r)) (report_of value).

(** The generator around the loop: the handler turns an exception of the
    loop into one log, and the sentinel is yielded in every case. *)
Definition fault_effects (r : outcome unit) : list effect :=
  match r with
  | Ret _ => []
  | Raise e => [Yield (sse_log (Msg.system_error (exn_str e)))]
  end.

Definition returns {A} (r : outcome A) : bool :=
  match r with
  | Ret _ => true
  | Raise _ => false
  end.

(** The console takes the lines the researcher prints in this run: the
    progress line and, when the search call raises, the line about the
    failure.  Without a search tool nothing is printed. *)
Definition console_accepts (stdout : pystr -> outcome unit)
    (search_tool : option (pystr -> outcome json)) (topic : pystr) : bool :=
  match search_tool with
  | None => true
  | Some tool =>
    returns (stdout (py "🔍 Searching via Tavily: " ++ topic)) &&
    match tool topic with
    | Ret _ => true
    | Raise e => returns (stdout (py "⚠️ Search failed: " ++ exn_str e))
    end
  end.

(** What the researcher does on the way, whatever the console and the
    tool do: nothing on the transport, no call of the model, no sleep,
    and at most one call of the search tool, with the topic. *)
Definition quiet (t : list effect) (topic : pystr) : Prop :=
  adapter_view t = [] /\ llm_calls t = [] /\
  (search_calls t = [] \/ search_calls t = [topic]).

(** What the researcher hands on as [search_data], by case. *)
Definition research_payload (search_tool : option (pystr -> outcome json))
    (topic : pystr) : pystr :=
  match search_tool with
  | None => py "No search data (tool failure)"
  | Some tool =>
    match tool topic with
    | Ret results => dumps false results
    | Raise e => py "Search Failed: " ++ exn_str e
    end
  end.

(** The number of log entries a stage returns: one from a stage without
    its capability, two otherwise. *)
Definition stage_logs {A} (handle : option A) : nat :=
  match handle with
  | None => 1
  | Some _ => 2
  end.

Definition is_log (chunk : pystr) : bool :=
  match classify chunk with
  | Some KLog => true
  | _ => false
  end.

(** No sleep of the adapter is directly followed by the yield of a
    Report or of the sentinel. *)
Fixpoint no_delay_before_report_or_done (t : list effect) : bool :=
  match t with
  | [] => true
  | Sleep _ :: rest =>
    match rest with
    | Yield c :: _ => is_log c
    | _ => true
    end && no_delay_before_report_or_done rest
  | _ :: rest => no_delay_before_report_or_done rest
  end.

(** The console lines of a trace. *)
Fixpoint console (t : list effect) : list pystr :=
  match t with
  | [] => []
  | Console l :: t' => l :: console t'
  | _ :: t' => console t'
  end.

(** The time slept, in milliseconds. *)
Fixpoint total_sleep (t : list effect) : N :=
  match t with
  | [] => 0%N
  | Sleep ms :: t' => (ms + total_sleep t')%N
  | _ :: t' => total_sleep t'
  end.

(** The state after a sequence of updates. *)
Definition merge_all (s : AgentState) (us : list StageUpdate) : AgentState :=
  fold_left merge us s.

(** A code point of a well-formed text: a Unicode scalar value, that is
    at most U+10FFFF and no surrogate. *)
Definition scalar (c : N) : bool :=
  ((c <? 55296) || (57343 <? c))%N && (c <=? 1114111)%N.

(** *** The wire format, written out

    What follows does not come from the program: it is the format as a
    client reads it.  A data unit is the fixed text
    [data: {"type": "<type>", "content": "<body>"}] and a blank line,
    where <body> is the body of a JSON string literal: characters other
    than the quote, the backslash and the control characters stand for
    themselves, and the escapes are those of the JSON grammar.  A body is
    read back as UTF-16 code units, which is how [\u] escapes count. *)

Definition hex_value (c : N) : option N :=
  if ((48 <=? c) && (c <=? 57))%N then Some (c - 48)%N
  else if ((97 <=? c) && (c <=? 102))%N then Some (c - 87)%N
  else if ((65 <=? c) && (c <=? 70))%N then Some (c - 55)%N
  else None.

Definition hex4_value (a b c d : N) : option N :=
  match hex_value a, hex_value b, hex_value c, hex_value d with
  | Some x3, Some x2, Some x1, Some x0 =>
    Some (((x3 * 16 + x2) * 16 + x1) * 16 + x0)%N
  | _, _, _, _ => None
  end.

(** The character after a backslash, other than [u]. *)
Definition short_unescape (x : N) : option N :=
  if (x =? 92)%N then Some 92%N
  else if (x =? 34)%N then Some 34%N
  else if (x =? 47)%N then Some 47%N
  else if (x =? 98)%N then Some 8%N
  else if (x =? 102)%N then Some 12%N
  else if (x =? 110)%N then Some 10%N
  else if (x =? 114)%N then Some 13%N
  else if (x =? 116)%N then Some 9%N
  else None.

Definition cons_opt (u : N) (r : option (list N)) : option (list N) :=
  match r with
  | Some l => Some (u :: l)
  | None => None
  end.

Fixpoint cons_all (us : list N) (r : option (list N)) : option (list N) :=
  match us with
  | [] => r
  | u :: us' => cons_opt u (cons_all us' r)
  end.

(** The code units of the body of a JSON string literal; [None] when the
    text is not such a body (a bare quote or control character, a
    backslash followed by nothing a JSON escape starts with). *)
Fixpoint read_string (s : pystr) : option (list N) :=
  match s with
  | [] => Some []
  | c :: r0 =>
    if (c =? 92)%N then
      match r0 with
      | [] => None
      | x :: r1 =>
        if (x =? 117)%N then
          match r1 with
          | a :: b :: c' :: d :: r5 =>
            match hex4_value a b c' d with
            | Some u => cons_opt u (read_string r5)
            | None => None
            end
          | _ => None
          end
        else
          match short_unescape x with
          | Some v => cons_opt v (read_string r1)
          | None => None
          end
      end
    else if ((c <? 32) || (c =? 34))%N then None
    else cons_opt c (read_string r0)
  end.

(** UTF-16: a code point of the basic plane is one unit, any other a
    high and a low surrogate. *)
Definition units_of (c : N) : list N :=
  if (c <? 65536)%N then [c]
  else
    let n := (c - 65536)%N in
    [N.lor 55296 (N.land (N.shiftr n 10) 1023); N.lor 56320 (N.land n 1023)].

Definition utf16 (s : pystr) : list N := flat_map units_of s.

Definition is_high (u : N) : bool := ((55296 <=? u) && (u <=? 56319))%N.
Definition is_low (u : N) : bool := ((56320 <=? u) && (u <=? 57343))%N.

Fixpoint join_surrogates (us : list N) : pystr :=
  match us with
  | [] => []
  | hi :: r =>
    match r with
    | lo :: r' =>
      if is_high hi && is_low lo then
        (65536 + (hi - 55296) * 1024 + (lo - 56320))%N :: join_surrogates r'
      else hi :: join_surrogates r
    | [] => [hi]
    end
  end.

(** The content of a JSON string literal body. *)
Definition decode_body (body : pystr) : option pystr :=
  match read_string body with
  | Some us => Some (join_surrogates us)
  | None => None
  end.

(** [chunk] is the data unit of type [ty] whose content reads [content]:
    the text of the format around a body in printable ASCII that reads
    as the code units of [content]. *)
Definition data_chunk (ty content chunk : pystr) : Prop :=
  exists body,
    chunk = py "data: {" ++ [dq] ++ py "type" ++ [dq] ++ py ": "
              ++ [dq] ++ ty ++ [dq] ++ py ", "
              ++ [dq] ++ py "content" ++ [dq] ++ py ": "
              ++ [dq] ++ body ++ [dq] ++ py "}" ++ [nl; nl] /\
    forallb printable body = true /\
    read_string body = Some (utf16 content).

(** [chunk] is what the format writes for the event. *)
Definition event_chunk (ev : TransportEvent) (chunk : pystr) : Prop :=
  match ev with
  | Log c => data_chunk (py "log") c chunk
  | Report c => data_chunk (py "report") c chunk
  | Done => chunk = py "data: [DONE]" ++ [nl; nl]
  end.

(** The chunks are what the format writes for the events, one for one
    and in order. *)
Definition serialises (evs : list TransportEvent) (chunks : list pystr)
  : Prop :=
  Forall2 event_chunk evs chunks.

(** A data unit of the stream: a data chunk of type log or report. *)
Definition data_unit (chunk : pystr) : Prop :=
  exists ty content,
    (ty = py "log" \/ ty = py "report") /\ data_chunk ty content chunk.

(** Data units, then the literal final line, and nothing else. *)
Definition well_formed_stream (chunks : list pystr) : Prop :=
  exists units,
    chunks = units ++ [py "data: [DONE]" ++ [nl; nl]] /\
    Forall data_unit units.

(** The fixed text around the content in a data chunk of type [ty]. *)
Definition chunk_head (ty : pystr) : pystr :=
  py "data: " ++ py "{" ++ encode_string true (py "type") ++ py ": "
    ++ encode_string true ty ++ py ", "
    ++ encode_string true (py "content") ++ py ": " ++ [dq].
Definition chunk_tail : pystr := [dq] ++ py "}" ++ [nl; nl].

(** An event whose content is a well-formed text. *)
Definition well_formed_event (ev : TransportEvent) : bool :=
  match ev with
  | Log c => forallb scalar c
  | Report c => forallb scalar c
  | Done => true
  end.

(** The prompt of the writer, written out around the topic and the
    search payload. *)
Definition prompt_text (topic search_data : pystr) : pystr :=
  [nl] ++
  py "    You are a senior technical analyst. Please write a briefing on "
    ++ [dq] ++ topic ++ [dq]
    ++ py " based on the provided online search results." ++ [nl] ++
  [nl] ++
  py "    【Search Result Data】:" ++ [nl] ++
  py "    " ++ search_data ++ [nl] ++
  [nl] ++
  py "    【Requirements】:" ++ [nl] ++
  py "    1. Use Markdown format." ++ [nl] ++
  py "    2. Cite specific data or sources from the search results." ++ [nl] ++
  py "    3. Clear structure: Title, Executive Summary, Key Findings, Conclusion."
    ++ [nl] ++
  py "    4. Professional and objective tone." ++ [nl] ++
  py "    ".

(* ================================================================== *)
(** ** Basic facts *)
(* ================================================================== *)

Arguments sse_log : simpl never.
Arguments sse_report : simpl never.
Arguments sse_done : simpl never.
Arguments writer_prompt : simpl never.
Arguments dumps : simpl never.

Lemma classify_log (c : pystr) : classify (sse_log c) = Some KLog.
Proof. reflexivity. Qed.

Lemma classify_report (c : pystr) : classify (sse_report c) = Some KReport.
Proof. reflexivity. Qed.

Lemma classify_done : classify sse_done = Some KDone.
Proof. reflexivity. Qed.

Lemma classify_wire (ev : TransportEvent) :
  classify (wire ev) = Some (kind_of ev).
Proof. destruct ev; reflexivity. Qed.

Lemma prompt_text_is_writer_prompt (topic data : pystr) :
  writer_prompt topic data = prompt_text topic data.
Proof. reflexivity. Qed.

(** The traversal of the program's graph: researcher, then writer on the
    merged state, then the end. *)
Lemma astream_workflow stdout search_tool llm inputs body :
  astream (workflow stdout search_tool llm) inputs body =
  (u1 <- research_node stdout search_tool inputs ;;
   body [("researcher"%string, u1)] ;;
   u2 <- writer_node llm (merge inputs u1) ;;
   body [("writer"%string, u2)] ;;
   ret tt).
Proof. reflexivity. Qed.

Lemma yielded_app (t1 t2 : list effect) :
  yielded (t1 ++ t2) = yielded t1 ++ yielded t2.
Proof.
  induction t1 as [|e t1 IH]; [reflexivity|].
  destruct e; simpl; rewrite IH; reflexivity.
Qed.

Lemma adapter_view_app (t1 t2 : list effect) :
  adapter_view (t1 ++ t2) = adapter_view t1 ++ adapter_view t2.
Proof.
  induction t1 as [|e t1 IH]; [reflexivity|].
  destruct e; simpl; rewrite IH; reflexivity.
Qed.

Lemma llm_calls_app (t1 t2 : list effect) :
  llm_calls (t1 ++ t2) = llm_calls t1 ++ llm_calls t2.
Proof.
  induction t1 as [|e t1 IH]; [reflexivity|].
  destruct e; simpl; rewrite IH; reflexivity.
Qed.

Lemma search_calls_app (t1 t2 : list effect) :
  search_calls (t1 ++ t2) = search_calls t1 ++ search_calls t2.
Proof.
  induction t1 as [|e t1 IH]; [reflexivity|].
  destruct e; simpl; rewrite IH; reflexivity.
Qed.

Lemma console_app (t1 t2 : list effect) :
  console (t1 ++ t2) = console t1 ++ console t2.
Proof.
  induction t1 as [|e t1 IH]; [reflexivity|].
  destruct e; simpl; rewrite IH; reflexivity.
Qed.

Lemma total_sleep_app (t1 t2 : list effect) :
  total_sleep (t1 ++ t2) = (total_sleep t1 + total_sleep t2)%N.
Proof.
  induction t1 as [|e t1 IH]; [reflexivity|].
  destruct e; simpl; rewrite IH; try reflexivity. lia.
Qed.

(** *** The monad *)

Lemma bind_ret {A B} (a : A) (t : list effect) (k : A -> io B) :
  bind (Ret a, t) k = (result (k a), t ++ trace (k a)).
Proof. cbn. destruct (k a); reflexivity. Qed.

Lemma bind_raise {A B} (e : exn) (t : list effect) (k : A -> io B) :
  bind (Raise e, t) k = (Raise e, t).
Proof. reflexivity. Qed.

Lemma ret_bind {A B} (a : A) (k : A -> io B) : bind (ret a) k = k a.
Proof. unfold ret. cbn. destruct (k a); reflexivity. Qed.

Lemma print_accepted stdout line :
  returns (stdout line) = true -> print stdout line = (Ret tt, [Console line]).
Proof. unfold print. destruct (stdout line); [reflexivity|discriminate]. Qed.

Lemma print_refused stdout line e :
  stdout line = Raise e -> print stdout line = (Raise e, []).
Proof. unfold print. intros ->. reflexivity. Qed.

(** *** What the adapter does with one update *)

Lemma for_each_logs (ls : list pystr) :
  for_each ls (fun log => yield (sse_log log) ;; sleep_pacing)
  = (Ret tt, paced_logs ls).
Proof.
  induction ls as [|l ls IH]; [reflexivity|].
  cbn [for_each]. rewrite IH. reflexivity.
Qed.

Lemma handle_value_run (value : StageUpdate) :
  handle_value value = (Ret tt, value_effects value).
Proof.
  unfold handle_value, value_effects, logs_of, report_of.
  destruct (upd_logs value) as [ls|];
    [rewrite for_each_logs|];
    (destruct (upd_final_report value) as [r|];
     [destruct (truthy r)|]); cbn; rewrite ?app_nil_r; reflexivity.
Qed.

Lemma handle_output_run (out : output) :
  handle_output out
  = (Ret tt, flat_map (fun kv => value_effects (snd kv)) out).
Proof.
  unfold handle_output.
  induction out as [|kv out IH]; [reflexivity|].
  cbn [for_each flat_map]. rewrite handle_value_run, IH. reflexivity.
Qed.

Lemma yielded_adapter_view (t : list effect) :
  yielded (adapter_view t) = yielded t.
Proof.
  induction t as [|e t IH]; [reflexivity|].
  destruct e; cbn; rewrite ?IH; reflexivity.
Qed.

Lemma total_sleep_adapter_view (t : list effect) :
  total_sleep (adapter_view t) = total_sleep t.
Proof.
  induction t as [|e t IH]; [reflexivity|].
  destruct e; cbn; rewrite ?IH; reflexivity.
Qed.

Lemma yielded_paced_logs (ls : list pystr) :
  yielded (paced_logs ls) = map sse_log ls.
Proof.
  induction ls as [|l ls IH]; [reflexivity|]. cbn. rewrite <- IH. reflexivity.
Qed.

Lemma yielded_reports (rs : list pystr) :
  yielded (map (fun r => Yield (sse_report r)) rs) = map sse_report rs.
Proof.
  induction rs as [|r rs IH]; [reflexivity|]. cbn. rewrite IH. reflexivity.
Qed.

Lemma yielded_value_effects (value : StageUpdate) :
  yielded (value_effects value) = map wire (events_of value).
Proof.
  unfold value_effects, events_of.
  rewrite yielded_app, yielded_paced_logs, map_app, !map_map.
  f_equal. induction (report_of value) as [|r rs IH]; [reflexivity|].
  cbn. rewrite IH. reflexivity.
Qed.

Lemma adapter_view_value_effects (value : StageUpdate) :
  adapter_view (value_effects value) = value_effects value.
Proof.
  unfold value_effects. rewrite adapter_view_app. f_equal.
  - induction (logs_of value) as [|l ls IH]; [reflexivity|].
    cbn. rewrite <- IH at 2. reflexivity.
  - induction (report_of value) as [|r rs IH]; [reflexivity|].
    cbn. rewrite IH. reflexivity.
Qed.

Lemma llm_calls_value_effects (value : StageUpdate) :
  llm_calls (value_effects value) = [].
Proof.
  unfold value_effects. rewrite llm_calls_app.
  induction (logs_of value) as [|l ls IH]; cbn.
  - induction (report_of value) as [|r rs IH]; [reflexivity|exact IH].
  - exact IH.
Qed.

Lemma search_calls_value_effects (value : StageUpdate) :
  search_calls (value_effects value) = [].
Proof.
  unfold value_effects. rewrite search_calls_app.
  induction (logs_of value) as [|l ls IH]; cbn.
  - induction (report_of value) as [|r rs IH]; [reflexivity|exact IH].
  - exact IH.
Qed.

Lemma total_sleep_value_effects (value : StageUpdate) :
  total_sleep (value_effects value)
  = (pacing_delay_ms * N.of_nat (List.length (logs_of value)))%N.
Proof.
  unfold value_effects. rewrite total_sleep_app.
  replace (total_sleep (map (fun r => Yield (sse_report r)) (report_of value)))
    with 0%N.
  - induction (logs_of value) as [|l ls IH]; [reflexivity|].
    cbn [paced_logs flat_map app total_sleep List.length].
    fold (paced_logs ls). rewrite Nat2N.inj_succ.
    rewrite N.add_0_r in *. rewrite IH. lia.
  - induction (report_of value) as [|r rs IH]; [reflexivity|exact IH].
Qed.

Lemma paced_logs_app (a b : list pystr) :
  paced_logs (a ++ b) = paced_logs a ++ paced_logs b.
Proof. unfold paced_logs. apply flat_map_app. Qed.

Lemma report_of_length (value : StageUpdate) :
  (List.length (report_of value) <= 1)%nat.
Proof.
  unfold report_of. destruct (upd_final_report value) as [r|]; cbn; [|lia].
  destruct (truthy r); cbn; lia.
Qed.

(** The generator around the loop. *)
Lemma event_generator_run (g : StateGraph) (topic : pystr) :
  let loop := astream g (initial_state topic) handle_output in
  event_generator g topic
  = (Ret tt, trace loop ++ fault_effects (result loop) ++ [Yield sse_done]).
Proof.
  unfold event_generator. fold (initial_state topic).
  destruct (astream g (initial_state topic) handle_output) as [[[]|e] t];
    cbn; rewrite <- ?app_assoc; reflexivity.
Qed.

(** *** Counting chunks *)

Lemma count_kind_app (k : kind) (a b : list pystr) :
  count_kind k (a ++ b) = (count_kind k a + count_kind k b)%nat.
Proof. unfold count_kind. rewrite filter_app, length_app. reflexivity. Qed.

Lemma count_kind_logs (k : kind) (ls : list pystr) :
  count_kind k (map sse_log ls)
  = if kind_eqb k KLog then List.length ls else 0%nat.
Proof.
  induction ls as [|l ls IH]; [destruct k; reflexivity|].
  unfold count_kind in *. cbn [map filter]. rewrite classify_log.
  destruct k; cbn [kind_eqb List.length] in *; rewrite IH; reflexivity.
Qed.

Lemma count_kind_reports (k : kind) (rs : list pystr) :
  count_kind k (map sse_report rs)
  = if kind_eqb k KReport then List.length rs else 0%nat.
Proof.
  induction rs as [|r rs IH]; [destruct k; reflexivity|].
  unfold count_kind in *. cbn [map filter]. rewrite classify_report.
  destruct k; cbn [kind_eqb List.length] in *; rewrite IH; reflexivity.
Qed.

(* ================================================================== *)
(** ** The encoder against the wire format *)
(* ================================================================== *)

Lemma hex_digit_printable (x : N) :
  printable (hex_digit (N.land x 15)) = true.
Proof.
  assert (B : (N.land x 15 < 16)%N).
  { change 15%N with (N.ones 4). rewrite N.land_ones.
    apply N.mod_upper_bound. discriminate. }
  unfold hex_digit, printable.
  destruct (N.ltb_spec (N.land x 15) 10);
    apply andb_true_iff; split; apply N.leb_le; lia.
Qed.

Lemma u_escape_printable (n : N) : forallb printable (u_escape n) = true.
Proof.
  unfold u_escape, hex4. cbn [forallb].
  rewrite !hex_digit_printable. reflexivity.
Qed.

Lemma escape_char_printable (c : N) :
  forallb printable (escape_char true c) = true.
Proof.
  unfold escape_char.
  destruct (short_escape c) as [x|] eqn:E.
  - unfold short_escape in E.
    repeat match type of E with
           | (if ?b then _ else _) = _ => destruct b
           end; inversion E; reflexivity.
  - destruct (N.ltb_spec c 32); [apply u_escape_printable|].
    cbn [negb].
    destruct (N.leb_spec c 126).
    + cbn. unfold printable.
      rewrite andb_true_r. apply andb_true_iff; split; apply N.leb_le; lia.
    + destruct (c <? 65536)%N; [apply u_escape_printable|].
      cbv zeta. rewrite forallb_app, !u_escape_printable. reflexivity.
Qed.

Lemma escaped_printable (s : pystr) :
  forallb printable (flat_map (escape_char true) s) = true.
Proof.
  induction s as [|c s IH]; [reflexivity|].
  cbn [flat_map]. rewrite forallb_app, escape_char_printable. exact IH.
Qed.

Lemma land15 (n k : N) :
  N.land (N.shiftr n k) 15 = ((n / 2 ^ k) mod 16)%N.
Proof.
  change 15%N with (N.ones 4).
  rewrite N.land_ones, N.shiftr_div_pow2. reflexivity.
Qed.

Lemma hex_value_digit (d : N) :
  (d < 16)%N -> hex_value (hex_digit d) = Some d.
Proof.
  intros H. unfold hex_value, hex_digit.
  destruct (N.ltb_spec d 10).
  - replace ((48 <=? 48 + d) && (48 + d <=? 57))%N with true.
    + f_equal. lia.
    + symmetry. apply andb_true_iff. split; apply N.leb_le; lia.
  - replace ((48 <=? 87 + d) && (87 + d <=? 57))%N with false.
    + replace ((97 <=? 87 + d) && (87 + d <=? 102))%N with true.
      * f_equal. lia.
      * symmetry. apply andb_true_iff. split; apply N.leb_le; lia.
    + symmetry. apply andb_false_iff. right. apply N.leb_gt. lia.
Qed.

Lemma hex4_value_hex4 (n : N) :
  (n < 65536)%N ->
  match hex4 n with
  | [a; b; c; d] => hex4_value a b c d = Some n
  | _ => False
  end.
Proof.
  intros H. unfold hex4, hex4_value.
  replace (N.land n 15) with (N.land (N.shiftr n 0) 15) by reflexivity.
  rewrite !land15.
  rewrite !hex_value_digit by (apply N.mod_upper_bound; discriminate).
  f_equal. change (2 ^ 12)%N with 4096%N. change (2 ^ 8)%N with 256%N.
  change (2 ^ 4)%N with 16%N. change (2 ^ 0)%N with 1%N.
  zify. Z.to_euclidean_division_equations. lia.
Qed.

Lemma read_u_escape (n : N) (rest : pystr) :
  (n < 65536)%N ->
  read_string (u_escape n ++ rest) = cons_opt n (read_string rest).
Proof.
  intros H. pose proof (hex4_value_hex4 H) as V.
  unfold u_escape. destruct (hex4 n) as [|a [|b [|c [|d [|x l]]]]];
    try contradiction.
  cbn. rewrite V. reflexivity.
Qed.

Lemma lor_surrogate (base x : N) :
  base = 55296%N \/ base = 56320%N ->
  (x < 1024)%N -> N.lor base x = (base + x)%N.
Proof.
  intros Hb Hx.
  assert (T : forallb
                (fun k => (N.lor 55296 (N.of_nat k) =? 55296 + N.of_nat k)%N
                          && (N.lor 56320 (N.of_nat k) =? 56320 + N.of_nat k)%N)
                (seq 0 1024) = true) by (vm_compute; reflexivity).
  rewrite forallb_forall in T.
  specialize (T (N.to_nat x)). rewrite N2Nat.id in T.
  assert (I : In (N.to_nat x) (seq 0 1024)) by (apply in_seq; lia).
  apply T, andb_true_iff in I. destruct I as [I1 I2].
  apply N.eqb_eq in I1, I2. destruct Hb; subst base; assumption.
Qed.

(** The two units written for a code point outside the basic plane are
    a high and a low surrogate, whatever the code point. *)
Lemma surrogate_units (n : N) :
  is_high (N.lor 55296 (N.land (N.shiftr n 10) 1023)) = true /\
  is_low (N.lor 56320 (N.land n 1023)) = true.
Proof.
  change 1023%N with (N.ones 10). rewrite !N.land_ones.
  change (2 ^ 10)%N with 1024%N.
  rewrite !lor_surrogate; auto;
    try (apply N.mod_upper_bound; discriminate).
  pose proof (N.mod_upper_bound (N.shiftr n 10) 1024 ltac:(discriminate))
    as H1.
  pose proof (N.mod_upper_bound n 1024 ltac:(discriminate)) as H2.
  revert H1 H2.
  generalize (N.shiftr n 10 mod 1024)%N, (n mod 1024)%N. intros q r H1 H2.
  unfold is_high, is_low.
  split; apply andb_true_iff; split; apply N.leb_le; lia.
Qed.

(** Of a code point that Python can hold, they are the UTF-16 pair. *)
Lemma surrogate_pair (c : N) :
  (65536 <= c)%N -> (c <= 1114111)%N ->
  N.lor 55296 (N.land (N.shiftr (c - 65536) 10) 1023)
    = (55296 + (c - 65536) / 1024)%N /\
  N.lor 56320 (N.land (c - 65536) 1023)
    = (56320 + (c - 65536) mod 1024)%N.
Proof.
  intros H1 H2.
  change 1023%N with (N.ones 10).
  rewrite !N.land_ones, N.shiftr_div_pow2.
  change (2 ^ 10)%N with 1024%N.
  rewrite !lor_surrogate; auto;
    try (apply N.mod_upper_bound; discriminate).
  rewrite (N.mod_small ((c - 65536) / 1024)); [split; reflexivity|].
  zify. Z.to_euclidean_division_equations. lia.
Qed.

Lemma units_of_astral (c : N) :
  (65536 <= c)%N -> (c <= 1114111)%N ->
  units_of c = [(55296 + (c - 65536) / 1024)%N;
                (56320 + (c - 65536) mod 1024)%N].
Proof.
  intros H1 H2. unfold units_of.
  destruct (N.ltb_spec c 65536); [lia|]. cbv zeta.
  destruct (surrogate_pair H1 H2) as [-> ->]. reflexivity.
Qed.

(** Reading back what the encoder writes for one code point. *)
Lemma read_escape_char (c : N) (rest : pystr) :
  read_string (escape_char true c ++ rest)
  = cons_all (units_of c) (read_string rest).
Proof.
  unfold escape_char.
  destruct (short_escape c) as [x|] eqn:E.
  - assert (U : units_of c = [c] /\ short_unescape x = Some c
                /\ (x =? 117)%N = false).
    { unfold short_escape in E.
      repeat match type of E with
             | (if (c =? ?k)%N then _ else _) = _ =>
               destruct (N.eqb_spec c k); [subst c; inversion E; subst x|]
             end; try discriminate E; repeat split. }
    destruct U as (U & S & X). rewrite U. cbn. rewrite X, S. reflexivity.
  - assert (B : (c =? 92)%N = false /\ (c =? 34)%N = false).
    { unfold short_escape in E. destruct (c =? 92)%N; [discriminate|].
      destruct (c =? 34)%N; [discriminate|]. split; reflexivity. }
    destruct B as [B Q].
    destruct (N.ltb_spec c 32).
    + rewrite read_u_escape by lia. unfold units_of.
      destruct (N.ltb_spec c 65536); [reflexivity|lia].
    + cbn [negb]. destruct (N.leb_spec c 126).
      * cbn. rewrite B, Q.
        destruct (N.ltb_spec c 32); [lia|]. cbn [orb]. unfold units_of.
        destruct (N.ltb_spec c 65536); [reflexivity|lia].
      * destruct (N.ltb_spec c 65536).
        -- rewrite read_u_escape by lia. unfold units_of.
           destruct (N.ltb_spec c 65536); [reflexivity|lia].
        -- cbv zeta. unfold units_of.
           destruct (N.ltb_spec c 65536); [lia|]. cbv zeta.
           destruct (surrogate_units (c - 65536)) as [Hh Hl].
           unfold is_high in Hh. unfold is_low in Hl.
           apply andb_true_iff in Hh, Hl.
           destruct Hh as [_ Hh]. destruct Hl as [_ Hl].
           apply N.leb_le in Hh, Hl.
           rewrite <- app_assoc.
           rewrite read_u_escape by lia.
           rewrite read_u_escape by lia. reflexivity.
Qed.

(** Reading back an encoded text gives its UTF-16 code units. *)
Lemma read_escaped (s : pystr) :
  read_string (flat_map (escape_char true) s) = Some (utf16 s).
Proof.
  induction s as [|c s IH]; [reflexivity|].
  cbn [flat_map utf16]. rewrite read_escape_char, IH.
  fold (utf16 s).
  destruct (units_of c) as [|u [|v [|w l]]] eqn:U; try reflexivity.
  unfold units_of in U. destruct (c <? 65536)%N; discriminate U.
Qed.

Lemma join_units (s : pystr) :
  forallb scalar s = true -> join_surrogates (utf16 s) = s.
Proof.
  unfold utf16.
  induction s as [|c s IH]; [reflexivity|].
  cbn [forallb flat_map]. intros H. apply andb_true_iff in H.
  destruct H as [Hc Hs]. specialize (IH Hs).
  unfold scalar in Hc. apply andb_true_iff in Hc. destruct Hc as [Hr Hm].
  apply N.leb_le in Hm.
  destruct (N.ltb_spec c 65536) as [Hlt|Hge].
  - assert (U : units_of c = [c]).
    { unfold units_of. destruct (N.ltb_spec c 65536); [reflexivity|lia]. }
    rewrite U. cbn [app].
    assert (Hh : is_high c = false).
    { unfold is_high. apply orb_true_iff in Hr.
      destruct Hr as [Hr|Hr]; [apply N.ltb_lt in Hr|apply N.ltb_lt in Hr];
        apply andb_false_iff; [left|right]; apply N.leb_gt; lia. }
    cbn [join_surrogates].
    destruct (flat_map units_of s) as [|lo r'] eqn:F.
    + cbn in IH. subst s. reflexivity.
    + rewrite Hh. cbn [andb]. rewrite IH. reflexivity.
  - rewrite units_of_astral by lia. cbn [app join_surrogates].
    assert (Hd : ((c - 65536) / 1024 < 1024)%N)
      by (zify; Z.to_euclidean_division_equations; lia).
    assert (Hmo : ((c - 65536) mod 1024 < 1024)%N)
      by (apply N.mod_upper_bound; discriminate).
    assert (E : (65536 + (55296 + (c - 65536) / 1024 - 55296) * 1024
                 + (56320 + (c - 65536) mod 1024 - 56320) = c)%N)
      by (zify; Z.to_euclidean_division_equations; lia).
    revert E.
    generalize dependent ((c - 65536) / 1024)%N.
    generalize dependent ((c - 65536) mod 1024)%N.
    intros r Hr' q Hq E.
    assert (Hh : is_high (55296 + q) = true).
    { unfold is_high. apply andb_true_iff. split; apply N.leb_le; lia. }
    assert (Hl : is_low (56320 + r) = true).
    { unfold is_low. apply andb_true_iff. split; apply N.leb_le; lia. }
    rewrite Hh, Hl. cbn [andb]. rewrite IH, E. reflexivity.
Qed.

Lemma decode_body_encoded (s : pystr) :
  forallb scalar s = true ->
  decode_body (flat_map (escape_char true) s) = Some s.
Proof.
  intros H. unfold decode_body.
  rewrite read_escaped, (join_units _ H). reflexivity.
Qed.

Lemma sse_data_split (ty content : pystr) :
  sse_data ty content
  = chunk_head ty ++ flat_map (escape_char true) content ++ chunk_tail.
Proof.
  unfold sse_data, chunk_head, chunk_tail.
  change (dumps true (JDict [(py "type", JStr ty); (py "content", JStr content)]))
    with (py "{" ++
          ((encode_string true (py "type") ++ py ": " ++ encode_string true ty)
           ++ py ", " ++
           (encode_string true (py "content") ++ py ": "
              ++ encode_string true content))
          ++ py "}").
  unfold encode_string at 4.
  repeat (rewrite <- ?app_assoc; cbn [app]).
  repeat f_equal.
Qed.

(** What the program yields for an event is what the format writes for
    it. *)
Lemma wire_event_chunk (ev : TransportEvent) : event_chunk ev (wire ev).
Proof.
  destruct ev as [c|c|]; [| |reflexivity];
    exists (flat_map (escape_char true) c);
    (split; [|split; [apply escaped_printable|apply read_escaped]]);
    cbn [wire]; unfold sse_log, sse_report; rewrite sse_data_split;
    reflexivity.
Qed.

Lemma serialises_wire (evs : list TransportEvent) :
  serialises evs (map wire evs).
Proof.
  induction evs as [|ev evs IH]; constructor;
    [apply wire_event_chunk|exact IH].
Qed.

Lemma wire_data_unit (ev : TransportEvent) : ev <> Done -> data_unit (wire ev).
Proof.
  pose proof (wire_event_chunk ev) as H.
  destruct ev as [c|c|]; intros N; [| |congruence].
  - exists (py "log"), c. split; [left; reflexivity|exact H].
  - exists (py "report"), c. split; [right; reflexivity|exact H].
Qed.

(* ================================================================== *)
(** ** The stages and the runs *)
(* ================================================================== *)

Arguments Msg.searching_line : simpl never.
Arguments Msg.search_failed_line : simpl never.
Arguments app : simpl nomatch.

Lemma research_node_unavailable stdout (state : AgentState) :
  research_node stdout None state
  = (Ret (research_update [Msg.search_unavailable_log] Msg.search_unavailable),
     []).
Proof. reflexivity. Qed.

(** The handler of the researcher, after the effects [pre] of the [try]:
    it prints the line about the failure and goes on to return the
    update, or the print raises and the exception leaves the stage. *)
Lemma research_node_handled stdout tool state e :
  stdout (Msg.searching_line (topic state)) = Raise e
  \/ (returns (stdout (Msg.searching_line (topic state))) = true
      /\ tool (topic state) = Raise e) ->
  let pre :=
    if returns (stdout (Msg.searching_line (topic state))) then
      [Console (Msg.searching_line (topic state)); SearchInvoke (topic state)]
    else [] in
  research_node stdout (Some tool) state
  = match stdout (Msg.search_failed_line (exn_str e)) with
    | Ret _ =>
      (Ret (research_update [Msg.search_error (exn_str e); Msg.search_end]
              (Msg.search_failed (exn_str e))),
       pre ++ [Console (Msg.search_failed_line (exn_str e))])
    | Raise e' => (Raise e', pre)
    end.
Proof.
  intros C pre. unfold research_node. cbv zeta.
  change (py "🔍 Searching via Tavily: " ++ topic state)
    with (Msg.searching_line (topic state)).
  assert (K : forall e0 : exn,
             (print stdout (py "⚠️ Search failed: " ++ exn_str e0) ;;
              ret (py "⚠️ Search Error: " ++ exn_str e0,
                   py "Search Failed: " ++ exn_str e0))
             = match stdout (Msg.search_failed_line (exn_str e0)) with
               | Ret _ =>
                 (Ret (Msg.search_error (exn_str e0),
                       Msg.search_failed (exn_str e0)),
                  [Console (Msg.search_failed_line (exn_str e0))])
               | Raise e' => (Raise e', [])
               end).
  { intros e0. unfold print.
    change (py "⚠️ Search failed: " ++ exn_str e0)
      with (Msg.search_failed_line (exn_str e0)).
    destruct (stdout (Msg.search_failed_line (exn_str e0))); reflexivity. }
  subst pre. destruct C as [H|[H1 H2]].
  - rewrite (print_refused _ _ H), bind_raise, H. cbn [returns].
    unfold try_except. rewrite K.
    destruct (stdout (Msg.search_failed_line (exn_str e))); reflexivity.
  - rewrite (print_accepted _ _ H1), bind_ret, H1.
    unfold invoke. rewrite H2, bind_raise. cbn [result trace fst snd].
    unfold try_except. rewrite K.
    destruct (stdout (Msg.search_failed_line (exn_str e))); reflexivity.
Qed.

Lemma research_node_success stdout tool state results :
  returns (stdout (Msg.searching_line (topic state))) = true ->
  tool (topic state) = Ret results ->
  research_node stdout (Some tool) state
  = (Ret (research_update [Msg.search_start (topic state); Msg.search_end]
            (dumps false results)),
     [Console (Msg.searching_line (topic state)); SearchInvoke (topic state)]).
Proof.
  intros H1 H2. unfold research_node, invoke, print.
  change (py "🔍 Searching via Tavily: " ++ topic state)
    with (Msg.searching_line (topic state)).
  destruct (stdout (Msg.searching_line (topic state))); [|discriminate].
  cbn. rewrite H2. reflexivity.
Qed.

Lemma research_node_failure stdout tool state e :
  returns (stdout (Msg.searching_line (topic state))) = true ->
  tool (topic state) = Raise e ->
  returns (stdout (Msg.search_failed_line (exn_str e))) = true ->
  research_node stdout (Some tool) state
  = (Ret (research_update [Msg.search_error (exn_str e); Msg.search_end]
            (Msg.search_failed (exn_str e))),
     [Console (Msg.searching_line (topic state));
      SearchInvoke (topic state);
      Console (Msg.search_failed_line (exn_str e))]).
Proof.
  intros H1 H2 H3.
  rewrite (@research_node_handled stdout tool state e)
    by (right; split; assumption).
  rewrite H1. destruct (stdout (Msg.search_failed_line (exn_str e)));
    [reflexivity|discriminate].
Qed.

Lemma writer_node_unavailable (state : AgentState) :
  writer_node None state
  = (Ret (writer_update [Msg.llm_unavailable_log] llm_not_running_report), []).
Proof. reflexivity. Qed.

Lemma writer_node_success model state text :
  model (writer_prompt (topic state) (search_data state)) = Ret text ->
  writer_node (Some model) state
  = (Ret (writer_update [Msg.writer_start; Msg.writer_end] text),
     [LlmInvoke (writer_prompt (topic state) (search_data state))]).
Proof. intros H. unfold writer_node, ainvoke. cbn. rewrite H. reflexivity. Qed.

Lemma writer_node_failure model state e :
  model (writer_prompt (topic state) (search_data state)) = Raise e ->
  writer_node (Some model) state
  = (Ret (writer_update [Msg.writer_start; Msg.writer_end]
            (Msg.llm_call_failed (exn_str e))),
     [LlmInvoke (writer_prompt (topic state) (search_data state))]).
Proof. intros H. unfold writer_node, ainvoke. cbn. rewrite H. reflexivity. Qed.

(** The writer, in full: it always returns. *)
Lemma writer_node_anatomy llm state :
  exists ls report,
    writer_node llm state
    = (Ret (writer_update ls report),
       match llm with
       | None => []
       | Some _ => [LlmInvoke (writer_prompt (topic state) (search_data state))]
       end) /\
    List.length ls = stage_logs llm /\
    (llm = None ->
     ls = [Msg.llm_unavailable_log] /\ report = llm_not_running_report).
Proof.
  destruct llm as [model|].
  - destruct (model (writer_prompt (topic state) (search_data state)))
      as [text|e] eqn:E.
    + rewrite (writer_node_success _ _ E).
      do 2 eexists. split; [reflexivity|]. split; [reflexivity|discriminate].
    + rewrite (writer_node_failure _ _ E).
      do 2 eexists. split; [reflexivity|]. split; [reflexivity|discriminate].
  - rewrite writer_node_unavailable.
    do 2 eexists. repeat split.
Qed.

(** The researcher, on any console: it returns an update with its logs
    and a payload, or it raises. *)
Lemma research_node_shape stdout search_tool state :
  exists t,
    quiet t (topic state) /\
    ((exists ls data,
        research_node stdout search_tool state
        = (Ret (research_update ls data), t) /\
        List.length ls = stage_logs search_tool)
     \/ (exists e, research_node stdout search_tool state = (Raise e, t))).
Proof.
  destruct search_tool as [tool|].
  - destruct (stdout (Msg.searching_line (topic state))) as [[]|e0] eqn:P.
    + destruct (tool (topic state)) as [results|e] eqn:T.
      * rewrite (@research_node_success stdout tool state results)
          by (rewrite ?P; auto).
        eexists. split; [|left; do 2 eexists; split; reflexivity].
        repeat split. right. reflexivity.
      * rewrite (@research_node_handled stdout tool state e)
          by (right; rewrite P; auto).
        rewrite P. cbn [returns].
        destruct (stdout (Msg.search_failed_line (exn_str e))).
        -- eexists. split; [|left; do 2 eexists; split; reflexivity].
           repeat split. right. reflexivity.
        -- eexists. split; [|right; eexists; reflexivity].
           repeat split. right. reflexivity.
    + rewrite (@research_node_handled stdout tool state e0) by (left; exact P).
      rewrite P. cbn [returns].
      destruct (stdout (Msg.search_failed_line (exn_str e0))).
      * eexists. split; [|left; do 2 eexists; split; reflexivity].
        repeat split. left. reflexivity.
      * eexists. split; [|right; eexists; reflexivity].
        repeat split. left. reflexivity.
  - rewrite research_node_unavailable.
    eexists. split; [|left; do 2 eexists; split; reflexivity].
    repeat split. left. reflexivity.
Qed.

(** The researcher on a console that takes its lines. *)
Lemma research_node_accepted stdout search_tool state :
  console_accepts stdout search_tool (topic state) = true ->
  exists ls t,
    research_node stdout search_tool state
    = (Ret (research_update ls (research_payload search_tool (topic state))),
       t) /\
    List.length ls = stage_logs search_tool /\
    adapter_view t = [] /\
    llm_calls t = [] /\
    search_calls t = match search_tool with
                     | None => []
                     | Some _ => [topic state]
                     end /\
    (search_tool = None -> ls = [Msg.search_unavailable_log]).
Proof.
  unfold console_accepts, research_payload.
  change (py "🔍 Searching via Tavily: " ++ topic state)
    with (Msg.searching_line (topic state)).
  destruct search_tool as [tool|].
  - intros H. apply andb_true_iff in H. destruct H as [H1 H2].
    destruct (tool (topic state)) as [results|e] eqn:E.
    + rewrite (research_node_success _ _ _ H1 E).
      do 2 eexists. split; [reflexivity|]. repeat split. discriminate.
    + rewrite (research_node_failure _ _ _ H1 E H2).
      do 2 eexists. split; [reflexivity|]. repeat split. discriminate.
  - intros _. rewrite research_node_unavailable.
    do 2 eexists. split; [reflexivity|]. repeat split.
Qed.

(** A run whose researcher returns: both stages are handled. *)
Lemma run_returns stdout search_tool llm subject u1 t1 u2 t2 :
  research_node stdout search_tool (initial_state subject) = (Ret u1, t1) ->
  writer_node llm (merge (initial_state subject) u1) = (Ret u2, t2) ->
  run_research stdout search_tool llm subject
  = (Ret tt,
     t1 ++ value_effects u1 ++ t2 ++ value_effects u2 ++ [Yield sse_done]).
Proof.
  intros E1 E2.
  unfold run_research. rewrite event_generator_run. cbv zeta.
  rewrite astream_workflow, E1.
  rewrite bind_ret, handle_output_run, bind_ret, E2.
  rewrite bind_ret, handle_output_run, bind_ret.
  cbn [trace result fst snd flat_map ret fault_effects app].
  rewrite !app_nil_r, <- !app_assoc. reflexivity.
Qed.

(** A run whose researcher raises: the handler of the generator turns
    the exception into one log, and the sentinel follows. *)
Lemma run_faults stdout search_tool llm subject e t1 :
  research_node stdout search_tool (initial_state subject) = (Raise e, t1) ->
  run_research stdout search_tool llm subject
  = (Ret tt,
     t1 ++ [Yield (sse_log (Msg.system_error (exn_str e))); Yield sse_done]).
Proof.
  intros E1.
  unfold run_research. rewrite event_generator_run. cbv zeta.
  rewrite astream_workflow, E1, bind_raise.
  cbn [trace result fst snd fault_effects app]. reflexivity.
Qed.

(** A whole run on a console that takes the researcher's lines, effect
    by effect. *)
Lemma run_research_anatomy stdout search_tool llm subject :
  console_accepts stdout search_tool subject = true ->
  let data := research_payload search_tool subject in
  exists ls1 t1 ls2 report,
    run_research stdout search_tool llm subject
    = (Ret tt,
       t1 ++ value_effects (research_update ls1 data)
          ++ match llm with
             | None => []
             | Some _ => [LlmInvoke (writer_prompt subject data)]
             end
          ++ value_effects (writer_update ls2 report)
          ++ [Yield sse_done]) /\
    research_node stdout search_tool (initial_state subject)
      = (Ret (research_update ls1 data), t1) /\
    writer_node llm (merge (initial_state subject) (research_update ls1 data))
      = (Ret (writer_update ls2 report),
         match llm with
         | None => []
         | Some _ => [LlmInvoke (writer_prompt subject data)]
         end) /\
    List.length ls1 = stage_logs search_tool /\
    List.length ls2 = stage_logs llm /\
    adapter_view t1 = [] /\
    llm_calls t1 = [] /\
    search_calls t1 = match search_tool with
                      | None => []
                      | Some _ => [subject]
                      end /\
    (search_tool = None -> ls1 = [Msg.search_unavailable_log]) /\
    (llm = None ->
     ls2 = [Msg.llm_unavailable_log] /\ report = llm_not_running_report).
Proof.
  intros HC data.
  destruct (@research_node_accepted stdout search_tool (initial_state subject) HC)
    as (ls1 & t1 & E1 & L1 & V1 & C1 & S1 & U1).
  change (topic (initial_state subject)) with subject in E1, S1.
  fold data in E1.
  destruct (writer_node_anatomy llm
              (merge (initial_state subject) (research_update ls1 data)))
    as (ls2 & report & E2 & L2 & U2).
  change (topic (merge (initial_state subject) (research_update ls1 data)))
    with subject in E2.
  change (search_data
            (merge (initial_state subject) (research_update ls1 data)))
    with data in E2.
  exists ls1, t1, ls2, report.
  split; [exact (@run_returns _ _ _ _ _ _ _ _ E1 E2)|].
  repeat (split; [assumption|]); assumption.
Qed.

(** Any run, on any console: the chunks of a run whose researcher
    returns, and of one whose researcher raises. *)
Lemma run_research_chunks stdout search_tool llm subject :
  match result (research_node stdout search_tool (initial_state subject)) with
  | Ret u1 =>
    exists ls1 ls2 rep,
      upd_logs u1 = Some ls1 /\
      List.length ls1 = stage_logs search_tool /\
      List.length ls2 = stage_logs llm /\
      (List.length rep <= 1)%nat /\
      yielded (trace (run_research stdout search_tool llm subject))
      = map sse_log ls1 ++ map sse_log ls2 ++ map sse_report rep
          ++ [sse_done] /\
      adapter_view (trace (run_research stdout search_tool llm subject))
      = paced_logs (ls1 ++ ls2)
          ++ map (fun r => Yield (sse_report r)) rep ++ [Yield sse_done]
  | Raise e =>
    yielded (trace (run_research stdout search_tool llm subject))
    = [sse_log (Msg.system_error (exn_str e)); sse_done] /\
    adapter_view (trace (run_research stdout search_tool llm subject))
    = [Yield (sse_log (Msg.system_error (exn_str e))); Yield sse_done] /\
    llm_calls (trace (run_research stdout search_tool llm subject)) = []
  end.
Proof.
  destruct (research_node_shape stdout search_tool (initial_state subject))
    as (t1 & (V1 & C1 & S1) & [(ls1 & data & E1 & L1)|(e & E1)]).
  - rewrite E1. cbn [result fst].
    destruct (writer_node_anatomy llm
                (merge (initial_state subject) (research_update ls1 data)))
      as (ls2 & report & E2 & L2 & _).
    exists ls1, ls2, (report_of (writer_update ls2 report)).
    split; [reflexivity|]. split; [exact L1|]. split; [exact L2|].
    split; [apply report_of_length|].
    rewrite (@run_returns _ _ _ _ _ _ _ _ E1 E2). cbn [trace snd].
    assert (A : adapter_view
                  (t1 ++ value_effects (research_update ls1 data)
                      ++ match llm with
                         | None => []
                         | Some _ =>
                           [LlmInvoke
                              (writer_prompt
                                 (topic (merge (initial_state subject)
                                           (research_update ls1 data)))
                                 (search_data
                                    (merge (initial_state subject)
                                       (research_update ls1 data))))]
                         end
                      ++ value_effects (writer_update ls2 report)
                      ++ [Yield sse_done])
                = paced_logs (ls1 ++ ls2)
                    ++ map (fun r => Yield (sse_report r))
                         (report_of (writer_update ls2 report))
                    ++ [Yield sse_done]).
    { rewrite !adapter_view_app, V1, !adapter_view_value_effects.
      rewrite paced_logs_app. unfold value_effects.
      change (report_of (research_update ls1 data)) with (@nil pystr).
      change (logs_of (research_update ls1 data)) with ls1.
      change (logs_of (writer_update ls2 report)) with ls2.
      destruct llm; cbn [map app adapter_view];
        rewrite ?app_nil_r, <- ?app_assoc; reflexivity. }
    split; [|exact A].
    rewrite <- yielded_adapter_view, A, !yielded_app, yielded_paced_logs.
    rewrite yielded_reports, map_app, <- !app_assoc. reflexivity.
  - rewrite E1. cbn [result fst].
    rewrite (@run_faults _ _ llm _ _ _ E1). cbn [trace snd].
    rewrite yielded_app, adapter_view_app, llm_calls_app.
    rewrite <- (yielded_adapter_view t1), V1, C1. repeat split.
Qed.

(** The kinds of the chunks of a list of events. *)
Lemma classify_events (evs : list TransportEvent) :
  map classify (map wire evs) = map (fun ev => Some (kind_of ev)) evs.
Proof.
  induction evs as [|ev evs IH]; [reflexivity|].
  cbn [map]. rewrite classify_wire, IH. reflexivity.
Qed.

Lemma count_kind_events (k : kind) (evs : list TransportEvent) :
  count_kind k (map wire evs)
  = List.length (filter (fun ev => kind_eqb k (kind_of ev)) evs).
Proof.
  unfold count_kind.
  induction evs as [|ev evs IH]; [reflexivity|].
  cbn [map filter]. rewrite classify_wire.
  destruct (kind_eqb k (kind_of ev)); cbn [List.length]; rewrite IH; reflexivity.
Qed.

(** Some runs, evaluated on a UTF-8 console: the scenario of the
    specification with a search that times out, a run without a search
    tool whose generation call is refused, and a search whose results
    carry a score. *)
Example run_with_search_timeout :
  yielded (trace (run_research Console.utf8 (Some Scenario.search_timeout)
                    (Some Scenario.llm_ok) Scenario.the_topic))
  = map wire [Log (py "⚠️ Search Error: timeout");
              Log Msg.search_end;
              Log Msg.writer_start;
              Log Msg.writer_end;
              Report Scenario.text;
              Done].
Proof. vm_compute. reflexivity. Qed.

Example run_degraded_twice :
  yielded (trace (run_research Console.utf8 None
                    (Some Scenario.llm_rate_limited) Scenario.the_topic))
  = map wire [Log Msg.search_unavailable_log;
              Log Msg.writer_start;
              Log Msg.writer_end;
              Report (py "❌ LLM Call Failed: rate limit");
              Done]
  /\ llm_calls (trace (run_research Console.utf8 None
                         (Some Scenario.llm_rate_limited) Scenario.the_topic))
     = [prompt_text Scenario.the_topic (py "No search data (tool failure)")].
Proof. split; vm_compute; reflexivity. Qed.

Example run_with_scored_results :
  research_node Console.utf8 (Some Scenario.search_scored)
    (initial_state Scenario.the_topic)
  = (Ret (research_update
            [Msg.search_start Scenario.the_topic; Msg.search_end]
            (py "[{" ++ [dq] ++ py "url" ++ [dq] ++ py ": " ++ [dq]
               ++ py "https://example.org/q" ++ [dq] ++ py ", " ++ [dq]
               ++ py "content" ++ [dq] ++ py ": " ++ [dq] ++ py "Qubits"
               ++ [dq] ++ py ", " ++ [dq] ++ py "score" ++ [dq]
               ++ py ": 0.98}]")),
     [Console (Msg.searching_line Scenario.the_topic);
      SearchInvoke Scenario.the_topic]).
Proof. vm_compute. reflexivity. Qed.

(** The chunks of a run in which the console takes the progress line
    and both calls return. *)
Lemma successful_run_chunks
    (stdout : pystr -> outcome unit)
    (tool : pystr -> outcome json) (model : pystr -> outcome pystr)
    (subject : pystr) (results : json) (text : pystr) :
  stdout (py "🔍 Searching via Tavily: " ++ subject) = Ret tt ->
  tool subject = Ret results ->
  model (prompt_text subject (dumps false results)) = Ret text ->
  run_research stdout (Some tool) (Some model) subject
  = (Ret tt,
     [Console (py "🔍 Searching via Tavily: " ++ subject);
      SearchInvoke subject]
       ++ value_effects
            (research_update [Msg.search_start subject; Msg.search_end]
               (dumps false results))
       ++ [LlmInvoke (prompt_text subject (dumps false results))]
       ++ value_effects
            (writer_update [Msg.writer_start; Msg.writer_end] text)
       ++ [Yield sse_done]).
Proof.
  intros Hp Hs Hg.
  assert (P : returns (stdout (Msg.searching_line
                                 (topic (initial_state subject)))) = true).
  { change (stdout (Msg.searching_line (topic (initial_state subject))))
      with (stdout (py "🔍 Searching via Tavily: " ++ subject)).
    rewrite Hp. reflexivity. }
  pose proof (@research_node_success stdout tool (initial_state subject)
                results P Hs) as E1.
  pose proof (@writer_node_success model
                (merge (initial_state subject)
                   (research_update [Msg.search_start subject; Msg.search_end]
                      (dumps false results)))
                text Hg) as E2.
  exact (@run_returns _ _ _ _ _ _ _ _ E1 E2).
Qed.

(* ================================================================== *)
(** ** C1: the order of events of a fully successful run *)
(* ================================================================== *)

(** C1, as amended.  For every topic, in a run in which both
    capabilities are initialised, the console takes the researcher's
    progress line and both calls succeed, the events are: the two
    researcher logs and the two writer logs, then one Report carrying
    the generated text when that text is not empty and no Report when it
    is empty, then the Done sentinel, and nothing after it.  The chunks
    are the ones the wire format writes for these events. *)
Theorem successful_run_event_order
    (stdout : pystr -> outcome unit)
    (tool : pystr -> outcome json) (model : pystr -> outcome pystr)
    (subject : pystr) (results : json) (text : pystr) :
  stdout (py "🔍 Searching via Tavily: " ++ subject) = Ret tt ->
  tool subject = Ret results ->
  model (prompt_text subject (dumps false results)) = Ret text ->
  let chunks :=
    yielded (trace (run_research stdout (Some tool) (Some model) subject)) in
  let four_logs :=
    [Log (py "🕵️ Researcher: Searching Tavily for '" ++ subject ++ py "'...");
     Log (py "✅ Researcher: Latest data retrieved.");
     Log (py "✍️ Writer: Llama 3.3 is drafting the report...");
     Log (py "✅ Writer: Report generated.")] in
  (text <> [] ->
   serialises (four_logs ++ [Report text; Done]) chunks /\
   chunks = map wire (four_logs ++ [Report text; Done]) /\
   logs_report_done false (map classify chunks) = true /\
   count_kind KReport chunks = 1%nat /\
   count_kind KDone chunks = 1%nat) /\
  (text = [] ->
   serialises (four_logs ++ [Done]) chunks /\
   chunks = map wire (four_logs ++ [Done]) /\
   count_kind KReport chunks = 0%nat /\
   count_kind KDone chunks = 1%nat).
Proof.
  intros Hp Hs Hg chunks four_logs.
  assert (E : chunks
              = map wire (four_logs
                            ++ map Report (if truthy text then [text] else [])
                            ++ [Done])).
  { subst chunks.
    rewrite (@successful_run_chunks stdout tool model subject results text
               Hp Hs Hg).
    cbn [trace snd]. rewrite !yielded_app, !yielded_value_effects.
    unfold events_of, report_of, logs_of, research_update, writer_update.
    cbn [upd_logs upd_final_report].
    destruct (truthy text); reflexivity. }
  split; intros T.
  - assert (Tt : truthy text = true) by (destruct text; [congruence|reflexivity]).
    rewrite Tt in E. cbn [map] in E.
    split; [rewrite E; apply serialises_wire|].
    split; [exact E|].
    rewrite E, classify_events, !count_kind_events. repeat split.
  - subst text. cbn [truthy map] in E.
    split; [rewrite E; apply serialises_wire|].
    split; [exact E|].
    rewrite E, !count_kind_events. repeat split.
Qed.

Lemma successful_run_event_order_witness :
  let chunks :=
    yielded (trace (run_research Console.utf8 (Some Scenario.search_scored)
                      (Some Scenario.llm_ok) Scenario.the_topic)) in
  serialises
    [Log (py "🕵️ Researcher: Searching Tavily for 'quantum computing'...");
     Log (py "✅ Researcher: Latest data retrieved.");
     Log (py "✍️ Writer: Llama 3.3 is drafting the report...");
     Log (py "✅ Writer: Report generated.");
     Report Scenario.text; Done] chunks /\
  count_kind KReport chunks = 1%nat.
Proof.
  pose proof (@successful_run_event_order Console.utf8 Scenario.search_scored
                Scenario.llm_ok Scenario.the_topic Scenario.scored_results
                Scenario.text eq_refl eq_refl eq_refl) as H.
  cbv zeta in H. destruct H as [H _].
  destruct (H ltac:(discriminate)) as (S & _ & _ & R & _).
  split; [exact S|exact R].
Defined.

(** C1, as stated, fails: with both capabilities initialised and both
    calls succeeding, a generation call that returns the empty text gives
    a run without any Report. *)
Lemma successful_run_without_report :
  ~ (forall (stdout : pystr -> outcome unit)
            (tool : pystr -> outcome json) (model : pystr -> outcome pystr)
            (subject : pystr) (results : json) (text : pystr),
        stdout (py "🔍 Searching via Tavily: " ++ subject) = Ret tt ->
        tool subject = Ret results ->
        model (prompt_text subject (dumps false results)) = Ret text ->
        let chunks :=
          yielded (trace (run_research stdout (Some tool) (Some model)
                            subject)) in
        logs_report_done false (map classify chunks) = true /\
        count_kind KReport chunks = 1%nat).
Proof.
  intros H.
  specialize (H Console.utf8 Scenario.search_ok Scenario.llm_empty
                Scenario.the_topic Scenario.results [] eq_refl eq_refl eq_refl).
  cbv zeta in H. destruct H as [_ H]. vm_compute in H. discriminate H.
Qed.

(* ================================================================== *)
(** ** C2: the wire format *)
(* ================================================================== *)

Lemma data_units_logs (ls : list pystr) : Forall data_unit (map sse_log ls).
Proof.
  induction ls as [|l ls IH]; constructor; [|exact IH].
  apply (@wire_data_unit (Log l)). discriminate.
Qed.

Lemma data_units_reports (rs : list pystr) :
  Forall data_unit (map sse_report rs).
Proof.
  induction rs as [|r rs IH]; constructor; [|exact IH].
  apply (@wire_data_unit (Report r)). discriminate.
Qed.

Lemma run_research_result stdout search_tool llm subject :
  result (run_research stdout search_tool llm subject) = Ret tt.
Proof. unfold run_research. rewrite event_generator_run. reflexivity. Qed.

(** C2.  Whatever the topic, the console and the capabilities, and
    whatever the two calls do, the generator ends normally and what it
    yielded is: units [data: {"type": "log"|"report", "content": "..."}]
    followed by a blank line, the content written as a JSON string in
    printable ASCII, and then, last, the literal line [data: [DONE]]
    followed by a blank line.  This includes the runs in which a call
    raises and those in which an exception leaves the researcher. *)
Theorem stream_wire_format
    (stdout : pystr -> outcome unit)
    (search_tool : option (pystr -> outcome json))
    (llm : option (pystr -> outcome pystr)) (subject : pystr) :
  result (run_research stdout search_tool llm subject) = Ret tt /\
  well_formed_stream
    (yielded (trace (run_research stdout search_tool llm subject))).
Proof.
  split; [apply run_research_result|].
  pose proof (run_research_chunks stdout search_tool llm subject) as H.
  destruct (result (research_node stdout search_tool (initial_state subject)))
    as [u1|e].
  - destruct H as (ls1 & ls2 & rep & _ & _ & _ & _ & Y & _).
    rewrite Y.
    exists (map sse_log ls1 ++ map sse_log ls2 ++ map sse_report rep).
    split; [rewrite <- !app_assoc; reflexivity|].
    apply Forall_app. split; [apply data_units_logs|].
    apply Forall_app. split; [apply data_units_logs|apply data_units_reports].
  - destruct H as (Y & _). rewrite Y.
    exists [sse_log (Msg.system_error (exn_str e))].
    split; [reflexivity|]. apply (data_units_logs [_]).
Qed.

(* ================================================================== *)
(** ** C3: a failure of the search call *)
(* ================================================================== *)

(** C3, at the failing input.  On a UTF-8 console, a search call that
    raises an exception whose text holds a lone surrogate is not
    absorbed by the researcher: the [print] of its handler raises
    [UnicodeEncodeError], that exception leaves the stage, the writer
    never runs, and the stream is one System Error log and the
    sentinel. *)
Theorem unprintable_search_failure_escapes :
  Scenario.search_unprintable Scenario.the_topic = Raise Scenario.unprintable /\
  research_node Console.utf8 (Some Scenario.search_unprintable)
    (initial_state Scenario.the_topic)
  = (Raise Scenario.unprintable_error,
     [Console (py "🔍 Searching via Tavily: quantum computing");
      SearchInvoke (py "quantum computing")]) /\
  forall llm,
    llm_calls (trace (run_research Console.utf8
                        (Some Scenario.search_unprintable) llm
                        Scenario.the_topic)) = [] /\
    yielded (trace (run_research Console.utf8
                      (Some Scenario.search_unprintable) llm
                      Scenario.the_topic))
    = [py "data: {" ++ [dq] ++ py "type" ++ [dq] ++ py ": " ++ [dq]
         ++ py "log" ++ [dq] ++ py ", " ++ [dq] ++ py "content" ++ [dq]
         ++ py ": " ++ [dq]
         ++ py "System Error: 'utf-8' codec can't encode character '"
         ++ [bslash; bslash]
         ++ py "udce9' in position 44: surrogates not allowed"
         ++ [dq] ++ py "}" ++ [nl; nl];
       py "data: [DONE]" ++ [nl; nl]].
Proof.
  split; [reflexivity|].
  assert (E1 : research_node Console.utf8 (Some Scenario.search_unprintable)
                 (initial_state Scenario.the_topic)
               = (Raise Scenario.unprintable_error,
                  [Console (py "🔍 Searching via Tavily: quantum computing");
                   SearchInvoke (py "quantum computing")]))
    by (vm_compute; reflexivity).
  split; [exact E1|].
  intros llm. rewrite (@run_faults _ _ llm _ _ _ E1).
  split; vm_compute; reflexivity.
Qed.

(* ================================================================== *)
(** ** C4: the logs of the research stage *)
(* ================================================================== *)

(** C4, as amended.  With an initialised search capability, on a console
    that takes the lines the stage prints, the research stage returns
    exactly two log entries.  When the call succeeds they are the
    start-of-search log, then the completion log.  When the call raises,
    the first entry is the error log, which holds the text of the
    exception verbatim and stands in place of the start-of-search log;
    the second entry is the same closing log. *)
Theorem research_logs
    (stdout : pystr -> outcome unit)
    (tool : pystr -> outcome json) (state : AgentState) :
  console_accepts stdout (Some tool) (topic state) = true ->
  exists ls data t,
    research_node stdout (Some tool) state
      = (Ret (research_update ls data), t) /\
    List.length ls = 2%nat /\
    match tool (topic state) with
    | Ret results =>
      ls = [py "🕵️ Researcher: Searching Tavily for '" ++ topic state
              ++ py "'...";
            py "✅ Researcher: Latest data retrieved."]
      /\ data = dumps false results
    | Raise e =>
      ls = [py "⚠️ Search Error: " ++ exn_str e;
            py "✅ Researcher: Latest data retrieved."]
      /\ data = py "Search Failed: " ++ exn_str e
    end.
Proof.
  unfold console_accepts.
  change (py "🔍 Searching via Tavily: " ++ topic state)
    with (Msg.searching_line (topic state)).
  intros H. apply andb_true_iff in H. destruct H as [H1 H2].
  destruct (tool (topic state)) as [results|e] eqn:E.
  - rewrite (research_node_success _ _ _ H1 E).
    do 3 eexists. repeat split.
  - rewrite (research_node_failure _ _ _ H1 E H2).
    do 3 eexists. repeat split.
Qed.

Lemma research_logs_witness :
  console_accepts Console.utf8 (Some Scenario.search_timeout)
    Scenario.the_topic = true /\
  exists t,
    research_node Console.utf8 (Some Scenario.search_timeout)
      (initial_state Scenario.the_topic)
    = (Ret (research_update
              [py "⚠️ Search Error: timeout";
               py "✅ Researcher: Latest data retrieved."]
              (py "Search Failed: timeout")),
       t).
Proof.
  split; [reflexivity|].
  destruct (@research_logs Console.utf8 Scenario.search_timeout
              (initial_state Scenario.the_topic) eq_refl)
    as (ls & data & t & E & _ & L & D).
  exists t. rewrite E, L, D. reflexivity.
Defined.

(** C4 as stated fails: when the search call raises, on a console that
    takes every line of the stage, no start-of-search log is returned;
    the error log has taken its place. *)
Lemma search_failure_drops_start_log :
  ~ (forall (stdout : pystr -> outcome unit)
            (tool : pystr -> outcome json) (state : AgentState),
       console_accepts stdout (Some tool) (topic state) = true ->
       exists u t rest,
         research_node stdout (Some tool) state = (Ret u, t) /\
         upd_logs u = Some (Msg.search_start (topic state) :: rest)).
Proof.
  intros H.
  destruct (H Console.utf8 Scenario.search_timeout
              (initial_state Scenario.the_topic) eq_refl)
    as (u & t & rest & E & L).
  vm_compute in E. inversion E; subst u. vm_compute in L. discriminate L.
Qed.

(* ================================================================== *)
(** ** C5: the pacing delay *)
(* ================================================================== *)

(** C5, as amended.  The adapter sleeps its fixed 100 ms right after
    every Log it yields from a stage update, the last log of the update
    included, and nowhere else.  So the delay separates consecutive logs,
    and it also stands between the last log and what is yielded next, the
    Report or the sentinel; nothing is slept after the Report, and
    nothing after the System Error log of a run whose loop ended with an
    exception. *)
Theorem pacing_follows_every_log :
  pacing_delay_ms = 100%N /\
  (forall value,
     trace (handle_value value)
     = flat_map (fun l => [Yield (sse_log l); Sleep 100%N]) (logs_of value)
       ++ map (fun r => Yield (sse_report r)) (report_of value)) /\
  (forall stdout search_tool llm subject,
     match result (research_node stdout search_tool (initial_state subject))
     with
     | Ret _ =>
       exists ls rep,
         ls <> [] /\
         adapter_view (trace (run_research stdout search_tool llm subject))
         = flat_map (fun l => [Yield (sse_log l); Sleep 100%N]) ls
           ++ map (fun r => Yield (sse_report r)) rep
           ++ [Yield sse_done] /\
         serialises (map Log ls ++ map Report rep ++ [Done])
           (yielded (trace (run_research stdout search_tool llm subject)))
     | Raise e =>
       adapter_view (trace (run_research stdout search_tool llm subject))
       = [Yield (sse_log (py "System Error: " ++ exn_str e)); Yield sse_done]
       /\
       serialises [Log (py "System Error: " ++ exn_str e); Done]
         (yielded (trace (run_research stdout search_tool llm subject)))
     end).
Proof.
  split; [reflexivity|]. split.
  - intros value. rewrite handle_value_run. reflexivity.
  - intros stdout search_tool llm subject.
    pose proof (run_research_chunks stdout search_tool llm subject) as H.
    destruct (result (research_node stdout search_tool
                        (initial_state subject))) as [u1|e].
    + destruct H as (ls1 & ls2 & rep & _ & L1 & _ & _ & Y & A).
      exists (ls1 ++ ls2), rep.
      split; [destruct ls1; [destruct search_tool|]; discriminate|].
      split; [exact A|].
      rewrite Y.
      replace (map sse_log ls1 ++ map sse_log ls2 ++ map sse_report rep
                 ++ [sse_done])
        with (map wire (map Log (ls1 ++ ls2) ++ map Report rep ++ [Done]))
        by (rewrite !map_app, !map_map, <- !app_assoc; reflexivity).
      apply serialises_wire.
    + destruct H as (Y & A & _). split; [exact A|].
      rewrite Y. apply (serialises_wire [Log _; Done]).
Qed.

(** C5 as stated fails: in the scenario of the specification a sleep
    comes directly before the Report. *)
Lemma delay_before_report :
  ~ (forall stdout search_tool llm subject,
       console_accepts stdout search_tool subject = true ->
       no_delay_before_report_or_done
         (adapter_view (trace (run_research stdout search_tool llm subject)))
       = true).
Proof.
  intros H.
  specialize (H Console.utf8 (Some Scenario.search_ok) (Some Scenario.llm_ok)
                Scenario.the_topic eq_refl).
  vm_compute in H. discriminate H.
Qed.

(** The calls of the model in a run: none when the researcher raises or
    no model is there, one otherwise, with the prompt built from the
    topic and the payload of the researcher. *)
Lemma run_llm_calls stdout search_tool llm subject :
  llm_calls (trace (run_research stdout search_tool llm subject))
  = match result (research_node stdout search_tool (initial_state subject)),
          llm with
    | Ret u1, Some _ =>
      [prompt_text subject
         (search_data (merge (initial_state subject) u1))]
    | _, _ => []
    end.
Proof.
  destruct (research_node_shape stdout search_tool (initial_state subject))
    as (t1 & (V1 & C1 & S1) & [(ls1 & data & E1 & L1)|(e & E1)]).
  - rewrite E1. cbn [result fst].
    destruct (writer_node_anatomy llm
                (merge (initial_state subject) (research_update ls1 data)))
      as (ls2 & report & E2 & _ & _).
    rewrite (@run_returns _ _ _ _ _ _ _ _ E1 E2). cbn [trace snd].
    rewrite !llm_calls_app, !llm_calls_value_effects, C1.
    destruct llm; reflexivity.
  - rewrite E1. cbn [result fst].
    rewrite (@run_faults _ _ llm _ _ _ E1). cbn [trace snd].
    rewrite llm_calls_app, C1. reflexivity.
Qed.

(** How the loop over the stream ends: with the exception of the
    researcher when it raises one, normally otherwise. *)
Lemma loop_result stdout search_tool llm subject :
  result (astream (workflow stdout search_tool llm) (initial_state subject)
            handle_output)
  = match result (research_node stdout search_tool (initial_state subject))
    with
    | Ret _ => Ret tt
    | Raise e => Raise e
    end.
Proof.
  rewrite astream_workflow.
  destruct (research_node stdout search_tool (initial_state subject))
    as [[u1|e] t1].
  - rewrite bind_ret, handle_output_run, bind_ret.
    destruct (research_node_shape stdout search_tool (initial_state subject))
      as (t1' & _ & _).
    destruct (writer_node llm (merge (initial_state subject) u1))
      as [[u2|e2] t2] eqn:E2.
    + rewrite bind_ret, handle_output_run, bind_ret. reflexivity.
    + exfalso.
      destruct llm as [model|];
        [|rewrite writer_node_unavailable in E2; discriminate E2].
      destruct (model (writer_prompt (topic (merge (initial_state subject) u1))
                         (search_data (merge (initial_state subject) u1))))
        eqn:G.
      * rewrite (writer_node_success _ _ G) in E2. discriminate E2.
      * rewrite (writer_node_failure _ _ G) in E2. discriminate E2.
  - reflexivity.
Qed.

(* ================================================================== *)
(** ** C6: no search capability *)
(* ================================================================== *)

(** C6.  Without a search capability the research stage raises nothing,
    calls nothing, and returns exactly one error log with the fixed
    payload; the traversal goes on to the writer, whose input state
    carries that payload; the run ends normally, the researcher having
    contributed that single Log, and the last chunk is the sentinel. *)
Theorem search_unavailable_degrades
    (stdout : pystr -> outcome unit)
    (llm : option (pystr -> outcome pystr)) (subject : pystr) :
  let state := initial_state subject in
  let u1 := research_update
              [py "❌ Error: Search tool not initialized (check TAVILY_API_KEY)"]
              (py "No search data (tool failure)") in
  (forall s, research_node stdout None s = (Ret u1, [])) /\
  search_data (merge state u1) = py "No search data (tool failure)" /\
  (forall body,
     astream (workflow stdout None llm) state body
     = (body [("researcher"%string, u1)] ;;
        u2 <- writer_node llm (merge state u1) ;;
        body [("writer"%string, u2)] ;;
        ret tt)) /\
  result (run_research stdout None llm subject) = Ret tt /\
  search_calls (trace (run_research stdout None llm subject)) = [] /\
  exists ls2 report t2,
    writer_node llm (merge state u1) = (Ret (writer_update ls2 report), t2) /\
    yielded (trace (run_research stdout None llm subject))
    = [sse_log (py "❌ Error: Search tool not initialized (check TAVILY_API_KEY)")]
      ++ map wire (events_of (writer_update ls2 report))
      ++ [sse_done] /\
    serialises
      ([Log (py "❌ Error: Search tool not initialized (check TAVILY_API_KEY)")]
         ++ events_of (writer_update ls2 report) ++ [Done])
      (yielded (trace (run_research stdout None llm subject))).
Proof.
  intros state u1.
  split; [intros s; reflexivity|]. split; [reflexivity|].
  split.
  { intros body. rewrite astream_workflow. fold state.
    rewrite research_node_unavailable.
    match goal with |- bind (Ret ?a, []) ?k = _ => exact (ret_bind a k) end. }
  split; [apply run_research_result|].
  destruct (writer_node_anatomy llm (merge state u1))
    as (ls2 & report & E2 & _ & _).
  pose proof (research_node_unavailable stdout state) as E1.
  rewrite (@run_returns _ _ _ _ _ _ _ _ E1 E2). cbn [trace snd].
  split.
  - rewrite !search_calls_app, !search_calls_value_effects.
    destruct llm; reflexivity.
  - do 3 eexists. split; [exact E2|].
    assert (Y : yielded
                  ([] ++ value_effects
                           (research_update [Msg.search_unavailable_log]
                              Msg.search_unavailable)
                      ++ match llm with
                         | None => []
                         | Some _ =>
                           [LlmInvoke
                              (writer_prompt (topic (merge state u1))
                                 (search_data (merge state u1)))]
                         end
                      ++ value_effects (writer_update ls2 report)
                      ++ [Yield sse_done])
                = map wire
                    ([Log (py "❌ Error: Search tool not initialized (check TAVILY_API_KEY)")]
                       ++ events_of (writer_update ls2 report) ++ [Done])).
    { rewrite !yielded_app, !yielded_value_effects, !map_app.
      destruct llm; reflexivity. }
    split; [rewrite Y, !map_app; reflexivity|].
    rewrite Y. apply serialises_wire.
Qed.

(* ================================================================== *)
(** ** C7: no generation capability *)
(* ================================================================== *)

(** C7.  Without a generation capability the writer returns at once, with
    no effect at all, the fixed report on the misconfiguration and one
    error log; and on such a run the generation capability is invoked not
    a single time, whatever the console and the search capability do. *)
Theorem llm_unavailable_skips_generation :
  (forall state,
     writer_node None state
     = (Ret (writer_update
               [py "❌ Fatal Error: LLM is not running"]
               (py "## System Error" ++ [nl]
                  ++ py "Cannot generate report because LLM initialization failed."
                  ++ [nl; nl]
                  ++ py "Please check backend console logs to confirm `GROQ_API_KEY` is set correctly.")),
        [])) /\
  (forall stdout search_tool subject,
     llm_calls (trace (run_research stdout search_tool None subject)) = []).
Proof.
  split; [intros state; reflexivity|].
  intros stdout search_tool subject. rewrite run_llm_calls.
  destruct (result (research_node stdout search_tool (initial_state subject)));
    reflexivity.
Qed.

(* ================================================================== *)
(** ** C8: the merge *)
(* ================================================================== *)

(** C8.  The merge appends the logs of an update and replaces each of
    the other keys exactly when the update carries it: an update with
    empty logs leaves the length of the logs unchanged; an update that
    carries [topic], [search_data] or [final_report] sets that key to the
    carried value whatever the old value was, and merging the same
    update again changes nothing more; a key the update omits keeps the
    value it had. *)
Theorem merge_by_presence (s : AgentState) (u : StageUpdate) :
  logs (merge s u) = logs s ++ logs_of u /\
  (upd_logs u = Some [] ->
   List.length (logs (merge s u)) = List.length (logs s)) /\
  (forall v,
     upd_search_data u = Some v ->
     search_data (merge s u) = v /\
     search_data (merge (merge s u) u) = v) /\
  (forall v,
     upd_topic u = Some v ->
     topic (merge s u) = v /\ topic (merge (merge s u) u) = v) /\
  (forall v,
     upd_final_report u = Some v ->
     final_report (merge s u) = v /\
     final_report (merge (merge s u) u) = v) /\
  (upd_topic u = None -> topic (merge s u) = topic s) /\
  (upd_logs u = None -> logs (merge s u) = logs s) /\
  (upd_search_data u = None -> search_data (merge s u) = search_data s) /\
  (upd_final_report u = None -> final_report (merge s u) = final_report s).
Proof.
  destruct s as [tp lg sd fr], u as [utp ulg usd ufr].
  unfold merge, logs_of, operator_add. cbn.
  split.
  { destruct ulg; cbn; [reflexivity|]. rewrite app_nil_r. reflexivity. }
  split.
  { intros ->. cbn. rewrite app_nil_r. reflexivity. }
  split; [intros v ->; split; reflexivity|].
  split; [intros v ->; split; reflexivity|].
  split; [intros v ->; split; reflexivity|].
  split; [intros ->; reflexivity|].
  split; [intros ->; reflexivity|].
  split; intros ->; reflexivity.
Qed.

Lemma merge_by_presence_witness :
  let s := {| topic := py "quantum computing";
              logs := [py "first"; py "second"];
              search_data := py "old payload";
              final_report := py "old report" |} in
  let u := {| upd_topic := None; upd_logs := Some [];
              upd_search_data := Some (py "new payload");
              upd_final_report := None |} in
  let w := {| upd_topic := Some (py "another topic"); upd_logs := None;
              upd_search_data := None;
              upd_final_report := Some (py "new report") |} in
  List.length (logs (merge s u)) = 2%nat /\
  search_data (merge s u) = py "new payload" /\
  topic (merge s u) = py "quantum computing" /\
  final_report (merge s u) = py "old report" /\
  topic (merge s w) = py "another topic" /\
  final_report (merge s w) = py "new report" /\
  logs (merge s w) = [py "first"; py "second"] /\
  search_data (merge s w) = py "old payload".
Proof.
  intros s u w.
  destruct (merge_by_presence s u)
    as (_ & HL & HS & _ & _ & HT & _ & _ & HF).
  destruct (merge_by_presence s w)
    as (_ & _ & _ & WT & WF & _ & WL & WS & _).
  split; [exact (HL eq_refl)|].
  split; [exact (proj1 (HS _ eq_refl))|].
  split; [exact (HT eq_refl)|].
  split; [exact (HF eq_refl)|].
  split; [exact (proj1 (WT _ eq_refl))|].
  split; [exact (proj1 (WF _ eq_refl))|].
  split; [exact (WL eq_refl)|exact (WS eq_refl)].
Defined.

(* ================================================================== *)
(** ** C9: a fault of the orchestration *)
(* ================================================================== *)

(** C9.  The generator always ends normally.  When the loop over the
    graph's stream ends with an exception, which in this program is an
    exception that leaves the researcher, the stream is cut short: it is
    one log event carrying ["System Error: "] and the text of the
    exception, then at once the sentinel, with no delay, and the writer
    is never reached.  No other run is shortened: when the loop ends
    normally, the events are the logs of the researcher, at least one,
    the logs of the writer, at least one, at most one Report, and the
    sentinel. *)
Theorem orchestration_fault_ends_stream
    (stdout : pystr -> outcome unit)
    (search_tool : option (pystr -> outcome json))
    (llm : option (pystr -> outcome pystr)) (subject : pystr) :
  let run := run_research stdout search_tool llm subject in
  result run = Ret tt /\
  match result (astream (workflow stdout search_tool llm)
                  (initial_state subject) handle_output) with
  | Raise e =>
    serialises [Log (py "System Error: " ++ exn_str e); Done]
      (yielded (trace run)) /\
    adapter_view (trace run)
    = [Yield (sse_log (py "System Error: " ++ exn_str e)); Yield sse_done] /\
    llm_calls (trace run) = []
  | Ret _ =>
    exists ls1 ls2 rep,
      ls1 <> [] /\ ls2 <> [] /\ (List.length rep <= 1)%nat /\
      serialises (map Log ls1 ++ map Log ls2 ++ map Report rep ++ [Done])
        (yielded (trace run))
  end.
Proof.
  intros run. subst run.
  split; [apply run_research_result|].
  rewrite loop_result.
  pose proof (run_research_chunks stdout search_tool llm subject) as H.
  destruct (result (research_node stdout search_tool (initial_state subject)))
    as [u1|e].
  - destruct H as (ls1 & ls2 & rep & _ & L1 & L2 & R & Y & _).
    exists ls1, ls2, rep.
    split; [destruct ls1; [destruct search_tool; discriminate L1|discriminate]|].
    split; [destruct ls2; [destruct llm; discriminate L2|discriminate]|].
    split; [exact R|].
    rewrite Y.
    replace (map sse_log ls1 ++ map sse_log ls2 ++ map sse_report rep
               ++ [sse_done])
      with (map wire (map Log ls1 ++ map Log ls2 ++ map Report rep ++ [Done]))
      by (rewrite !map_app, !map_map; reflexivity).
    apply serialises_wire.
  - destruct H as (Y & A & C).
    split; [|split; [exact A|exact C]].
    rewrite Y. apply (serialises_wire [Log _; Done]).
Qed.

(** A run cut short: the failure of C3 seen from the stream. *)
Example run_cut_short :
  result (astream (workflow Console.utf8 (Some Scenario.search_unprintable)
                     (Some Scenario.llm_ok))
            (initial_state Scenario.the_topic) handle_output)
  = Raise Scenario.unprintable_error /\
  yielded (trace (run_research Console.utf8 (Some Scenario.search_unprintable)
                    (Some Scenario.llm_ok) Scenario.the_topic))
  = map wire
      [Log (py "System Error: 'utf-8' codec can't encode character '"
              ++ [bslash]
              ++ py "udce9' in position 44: surrogates not allowed");
       Done].
Proof. split; vm_compute; reflexivity. Qed.

(* ================================================================== *)
(** ** C10: the logs and the report of the synthesis stage *)
(* ================================================================== *)

(** C10, as amended.  With an initialised generation capability the
    writer invokes it once and always returns its two log entries.  When
    the call raises, the report is the non-empty error string
    ["❌ LLM Call Failed: "] followed by the text of the exception, and
    the adapter emits a Report for it.  When the call succeeds the report
    is the returned text, and the adapter emits a Report exactly when that
    text is not empty. *)
Theorem writer_logs_and_report
    (model : pystr -> outcome pystr) (state : AgentState) :
  let ls := [py "✍️ Writer: Llama 3.3 is drafting the report...";
             py "✅ Writer: Report generated."] in
  let prompt := prompt_text (topic state) (search_data state) in
  exists report,
    writer_node (Some model) state
      = (Ret (writer_update ls report), [LlmInvoke prompt]) /\
    match model prompt with
    | Raise e =>
      report = py "❌ LLM Call Failed: " ++ exn_str e /\
      report <> [] /\
      yielded (trace (handle_value (writer_update ls report)))
      = map sse_log ls ++ [sse_report report] /\
      serialises (map Log ls ++ [Report report])
        (yielded (trace (handle_value (writer_update ls report))))
    | Ret text =>
      report = text /\
      yielded (trace (handle_value (writer_update ls report)))
      = map sse_log ls ++ (if truthy text then [sse_report text] else []) /\
      serialises (map Log ls ++ (if truthy text then [Report text] else []))
        (yielded (trace (handle_value (writer_update ls report))))
    end.
Proof.
  intros ls prompt.
  destruct (model prompt) as [text|e] eqn:E.
  - exists text. rewrite (writer_node_success _ _ E).
    split; [reflexivity|]. split; [reflexivity|].
    rewrite handle_value_run. cbn [trace snd].
    rewrite yielded_value_effects. unfold events_of, report_of, logs_of.
    cbn [writer_update upd_logs upd_final_report].
    split; [destruct (truthy text); reflexivity|].
    replace (map Log ls ++ (if truthy text then [Report text] else []))
      with (map Log ls ++ map Report (if truthy text then [text] else []))
      by (destruct (truthy text); reflexivity).
    apply serialises_wire.
  - exists (Msg.llm_call_failed (exn_str e)).
    rewrite (writer_node_failure _ _ E).
    split; [reflexivity|]. split; [reflexivity|]. split; [discriminate|].
    rewrite handle_value_run. cbn [trace snd].
    rewrite yielded_value_effects.
    split; [reflexivity|]. apply serialises_wire.
Qed.

(** C10 as stated fails: a generation call that succeeds with an empty
    text gives an empty report, for which no Report is emitted. *)
Lemma empty_generation_empty_report :
  ~ (forall (model : pystr -> outcome pystr) (state : AgentState),
       exists ls report t,
         writer_node (Some model) state = (Ret (writer_update ls report), t)
         /\ report <> []).
Proof.
  intros H.
  destruct (H Scenario.llm_empty (initial_state Scenario.the_topic))
    as (ls & report & t & E & N).
  vm_compute in E. inversion E. subst report. apply N. reflexivity.
Qed.

(* ================================================================== *)
(** ** Further properties: the wire format *)
(* ================================================================== *)

(** X1.  Whatever the contents are, a Log chunk is never a Report chunk
    and neither is ever the sentinel: a topic or a provider text cannot
    forge another kind of event. *)
Theorem wire_kinds_apart (a b : pystr) :
  sse_log a <> sse_report b /\
  sse_log a <> sse_done /\
  sse_report b <> sse_done /\
  (forall ev, wire ev = sse_done -> ev = Done).
Proof.
  assert (K : forall e1 e2, wire e1 = wire e2 -> kind_of e1 = kind_of e2).
  { intros e1 e2 H. pose proof (classify_wire e1) as C1.
    rewrite H, classify_wire in C1. inversion C1. reflexivity. }
  split; [|split; [|split]].
  - intros H. specialize (K (Log a) (Report b) H). discriminate K.
  - intros H. specialize (K (Log a) Done H). discriminate K.
  - intros H. specialize (K (Report b) Done H). discriminate K.
  - intros ev H. specialize (K ev Done H). destruct ev; try discriminate K.
    reflexivity.
Qed.

Lemma wire_kinds_apart_witness :
  wire Done = sse_done /\ Done = Done.
Proof.
  split; [reflexivity|].
  exact (proj2 (proj2 (proj2 (wire_kinds_apart [] []))) Done eq_refl).
Defined.

(** X2.  On events whose content is well-formed text (Unicode scalar
    values), the wire format loses nothing: two events with the same
    chunk are the same event, kind and content. *)
Theorem wire_injective (ev1 ev2 : TransportEvent) :
  well_formed_event ev1 = true ->
  well_formed_event ev2 = true ->
  wire ev1 = wire ev2 ->
  ev1 = ev2.
Proof.
  intros W1 W2 H.
  assert (K : kind_of ev1 = kind_of ev2).
  { pose proof (classify_wire ev1) as C1.
    rewrite H, classify_wire in C1. inversion C1. reflexivity. }
  assert (I : forall ty a b,
             forallb scalar a = true -> forallb scalar b = true ->
             sse_data ty a = sse_data ty b -> a = b).
  { intros ty a b Wa Wb E. rewrite !sse_data_split in E.
    apply app_inv_head, app_inv_tail in E.
    pose proof (decode_body_encoded _ Wa) as Da.
    rewrite E, (decode_body_encoded _ Wb) in Da. inversion Da. reflexivity. }
  destruct ev1 as [a|a|], ev2 as [b|b|]; try discriminate K;
    try reflexivity; f_equal; cbn [well_formed_event wire] in W1, W2, H;
    eapply I; eassumption.
Qed.

Lemma wire_injective_witness :
  well_formed_event (Report Scenario.text) = true /\
  wire (Report Scenario.text) = wire (Report (py "## Report" ++ [nl] ++ py "...")) /\
  Report Scenario.text = Report (py "## Report" ++ [nl] ++ py "...").
Proof.
  split; [reflexivity|]. split; [reflexivity|].
  apply (@wire_injective (Report Scenario.text)
           (Report (py "## Report" ++ [nl] ++ py "..."))); reflexivity.
Defined.

(** Without well-formedness the property fails: a pair of surrogate code
    points is written like the code point it would encode. *)
Example surrogates_collide :
  sse_log [55357%N; 56693%N] = sse_log [128373%N].
Proof. vm_compute. reflexivity. Qed.

(* ================================================================== *)
(** ** Further properties: start-up *)
(* ================================================================== *)

(** A line that starts with a character outside ASCII is refused by the
    ASCII console. *)
Lemma ascii_refuses (c : N) (rest : pystr) :
  (128 <=? c)%N = true ->
  exists text,
    Console.ascii (c :: rest) = Raise (Exception "UnicodeEncodeError" text).
Proof.
  intros H. unfold Console.ascii, Console.strict.
  cbn [Console.find_run]. rewrite H. eexists. reflexivity.
Qed.

(** The handle of the model, when the initialisation returns one. *)
Lemma init_llm_returns stdout getenv ChatGroq h t :
  init_llm stdout getenv ChatGroq = (Ret h, t) ->
  h = if env_set getenv "GROQ_API_KEY" then
        match ChatGroq with
        | Ret model => Some model
        | Raise _ => None
        end
      else None.
Proof.
  unfold init_llm, llm_init_error, try_except, print.
  destruct (env_set getenv "GROQ_API_KEY"); cbn [negb].
  - destruct ChatGroq as [model|e0].
    + destruct (stdout (py "✅ LLM (Groq Llama 3.3) initialized successfully"))
        as [[]|e1]; cbn.
      * intros E. inversion E. reflexivity.
      * destruct (stdout _); cbn; intros E; inversion E. reflexivity.
    + destruct (stdout _); cbn; intros E; inversion E. reflexivity.
  - destruct (stdout _) as [[]|e1]; cbn.
    + intros E. inversion E. reflexivity.
    + destruct (stdout _); cbn; intros E; inversion E. reflexivity.
Qed.

(** X3.  Initialising the model.  Whenever the initialisation returns,
    the handle is set exactly when [GROQ_API_KEY] is set to a non-empty
    value and the constructor returned; an unset key, an empty key and a
    raising constructor leave it [None].  One line is due in each case:
    when the console takes it, the initialisation returns and that line
    is all it printed; when the console refuses it and refuses the line
    of the handler, the exception leaves the module. *)
Theorem init_llm_handle
    (stdout : pystr -> outcome unit)
    (getenv : string -> option pystr)
    (ChatGroq : outcome (pystr -> outcome pystr)) :
  let handle :=
    if env_set getenv "GROQ_API_KEY" then
      match ChatGroq with
      | Ret model => Some model
      | Raise _ => None
      end
    else None in
  let line :=
    if env_set getenv "GROQ_API_KEY" then
      match ChatGroq with
      | Ret _ => py "✅ LLM (Groq Llama 3.3) initialized successfully"
      | Raise e => py "❌ LLM Init Error: " ++ exn_str e
      end
    else py "🚨 Critical Error: GROQ_API_KEY not found, LLM cannot start! Please check .env file" in
  (forall h t, init_llm stdout getenv ChatGroq = (Ret h, t) -> h = handle) /\
  (stdout line = Ret tt ->
   init_llm stdout getenv ChatGroq = (Ret handle, [Console line])) /\
  (forall e e',
     stdout line = Raise e ->
     stdout (py "❌ LLM Init Error: " ++ exn_str e) = Raise e' ->
     init_llm stdout getenv ChatGroq = (Raise e, []) \/
     init_llm stdout getenv ChatGroq = (Raise e', [])).
Proof.
  intros handle line.
  split; [intros h t E; exact (init_llm_returns _ _ _ E)|].
  subst handle line.
  unfold init_llm, llm_init_error, try_except, print.
  destruct (env_set getenv "GROQ_API_KEY"); cbn [negb].
  - destruct ChatGroq as [model|e0].
    + split.
      * intros ->. reflexivity.
      * intros e e' -> E'. right. cbn -[app]. rewrite E'. reflexivity.
    + split.
      * intros ->. reflexivity.
      * intros e e' -> _. left. reflexivity.
  - split.
    + intros ->. reflexivity.
    + intros e e' -> E'. right. cbn -[app]. rewrite E'. reflexivity.
Qed.

Lemma init_llm_handle_witness :
  let getenv := fun name : string =>
    if String.eqb name "GROQ_API_KEY" then Some (py "gsk_test") else None in
  init_llm Console.utf8 getenv (Ret Scenario.llm_ok)
  = (Ret (Some Scenario.llm_ok),
     [Console (py "✅ LLM (Groq Llama 3.3) initialized successfully")]) /\
  exists e, init_llm Console.ascii getenv (Ret Scenario.llm_ok) = (Raise e, []).
Proof.
  intros getenv.
  destruct (init_llm_handle Console.utf8 getenv (Ret Scenario.llm_ok))
    as (_ & R & _).
  split; [exact (R eq_refl)|].
  destruct (init_llm_handle Console.ascii getenv (Ret Scenario.llm_ok))
    as (_ & _ & F).
  destruct (F _ _ eq_refl eq_refl) as [E|E]; eexists; exact E.
Defined.

(** X4.  Initialising the search tool.  When the console takes the
    warning that is due when [TAVILY_API_KEY] is unset or empty, the
    handle is set exactly when the constructor returns: the key decides
    only whether the warning is printed.  When the constructor raises,
    the handler prints the init error with the text of the exception and
    the handle is [None]; when the console refuses that line, the
    exception leaves the module. *)
Theorem init_search_tool_handle
    (stdout : pystr -> outcome unit)
    (getenv : string -> option pystr)
    (TavilySearchResults : outcome (pystr -> outcome json)) :
  let warning :=
    py "⚠️ Warning: TAVILY_API_KEY not found, search functionality will be unavailable" in
  let warned :=
    if env_set getenv "TAVILY_API_KEY" then [] else [Console warning] in
  (env_set getenv "TAVILY_API_KEY" = false -> stdout warning = Ret tt) ->
  match TavilySearchResults with
  | Ret tool =>
    init_search_tool stdout getenv TavilySearchResults
    = (Ret (Some tool), warned)
  | Raise e =>
    match stdout (py "❌ Tavily Init Error: " ++ exn_str e) with
    | Ret _ =>
      init_search_tool stdout getenv TavilySearchResults
      = (Ret None,
         warned ++ [Console (py "❌ Tavily Init Error: " ++ exn_str e)])
    | Raise e' =>
      init_search_tool stdout getenv TavilySearchResults = (Raise e', warned)
    end
  end.
Proof.
  intros warning warned W. subst warned.
  unfold init_search_tool, construct, try_except, print.
  destruct (env_set getenv "TAVILY_API_KEY"); cbn [negb].
  - destruct TavilySearchResults as [tool|e]; [reflexivity|].
    cbn -[app].
    destruct (stdout (py "❌ Tavily Init Error: " ++ exn_str e)) as [[]|e'];
      reflexivity.
  - fold warning. rewrite (W eq_refl).
    destruct TavilySearchResults as [tool|e]; [reflexivity|].
    cbn -[app].
    destruct (stdout (py "❌ Tavily Init Error: " ++ exn_str e)) as [[]|e'];
      reflexivity.
Qed.

Lemma init_search_tool_handle_witness :
  let getenv := fun _ : string => @None pystr in
  let failure := Exception "ValidationError" (py "Did not find tavily_api_key") in
  init_search_tool Console.utf8 getenv (Raise failure)
  = (Ret None,
     [Console (py "⚠️ Warning: TAVILY_API_KEY not found, search functionality will be unavailable");
      Console (py "❌ Tavily Init Error: Did not find tavily_api_key")]) /\
  init_search_tool Console.utf8 getenv (Ret Scenario.search_ok)
  = (Ret (Some Scenario.search_ok),
     [Console (py "⚠️ Warning: TAVILY_API_KEY not found, search functionality will be unavailable")]).
Proof.
  intros getenv failure. split.
  - exact (@init_search_tool_handle Console.utf8 getenv (Raise failure)
             (fun _ => eq_refl)).
  - exact (@init_search_tool_handle Console.utf8 getenv
             (Ret Scenario.search_ok) (fun _ => eq_refl)).
Defined.

(** On the ASCII console the two initialisations print nothing: the
    search tool is set without a word when its key is set and its
    constructor returns, and every other path ends in an exception of
    [print]. *)
Lemma init_search_tool_ascii getenv TavilySearchResults :
  (exists tool,
     init_search_tool Console.ascii getenv TavilySearchResults
     = (Ret (Some tool), []))
  \/ (exists text,
        init_search_tool Console.ascii getenv TavilySearchResults
        = (Raise (Exception "UnicodeEncodeError" text), [])).
Proof.
  unfold init_search_tool, construct, try_except, print.
  destruct (env_set getenv "TAVILY_API_KEY"); cbn [negb].
  - destruct TavilySearchResults as [tool|e0].
    + left. exists tool. reflexivity.
    + right.
      destruct (ascii_refuses 10060
                  (py " Tavily Init Error: " ++ exn_str e0) eq_refl)
        as [text E].
      exists text. cbn -[app Console.ascii].
      change (py "❌ Tavily Init Error: " ++ exn_str e0)
        with (10060%N :: py " Tavily Init Error: " ++ exn_str e0).
      rewrite E. reflexivity.
  - right. eexists. vm_compute. reflexivity.
Qed.

Lemma init_llm_ascii getenv ChatGroq :
  exists text,
    init_llm Console.ascii getenv ChatGroq
    = (Raise (Exception "UnicodeEncodeError" text), []).
Proof.
  unfold init_llm, llm_init_error, try_except, print.
  destruct (env_set getenv "GROQ_API_KEY"); cbn [negb].
  - destruct ChatGroq as [model|e0].
    + eexists. vm_compute. reflexivity.
    + destruct (ascii_refuses 10060 (py " LLM Init Error: " ++ exn_str e0)
                  eq_refl) as [text E].
      exists text.
      change (py "❌ LLM Init Error: " ++ exn_str e0)
        with (10060%N :: py " LLM Init Error: " ++ exn_str e0).
      rewrite E. reflexivity.
  - eexists. vm_compute. reflexivity.
Qed.

(** X17.  On a console that encodes ASCII only, the module cannot be
    loaded: whatever the environment holds and the constructors do, a
    line with a character outside ASCII is due, [print] raises
    [UnicodeEncodeError] for it and for the line of the handler, and the
    exception leaves the module with nothing printed. *)
Theorem startup_fails_on_ascii_console
    (getenv : string -> option pystr)
    (TavilySearchResults : outcome (pystr -> outcome json))
    (ChatGroq : outcome (pystr -> outcome pystr)) :
  exists text,
    startup Console.ascii getenv TavilySearchResults ChatGroq
    = (Raise (Exception "UnicodeEncodeError" text), []).
Proof.
  unfold startup.
  destruct (init_search_tool_ascii getenv TavilySearchResults)
    as [[tool ->]|[text ->]].
  - destruct (init_llm_ascii getenv ChatGroq) as [text L].
    exists text. rewrite bind_ret, L, bind_raise. reflexivity.
  - exists text. rewrite bind_raise. reflexivity.
Qed.

(* ================================================================== *)
(** ** Further properties: a run, stage by stage *)
(* ================================================================== *)

(** The calls of the search tool in a run are those of the researcher. *)
Lemma run_search_calls stdout search_tool llm subject :
  search_calls (trace (run_research stdout search_tool llm subject))
  = search_calls
      (trace (research_node stdout search_tool (initial_state subject))).
Proof.
  destruct (research_node_shape stdout search_tool (initial_state subject))
    as (t1 & _ & [(ls1 & data & E1 & L1)|(e & E1)]).
  - destruct (writer_node_anatomy llm
                (merge (initial_state subject) (research_update ls1 data)))
      as (ls2 & report & E2 & _ & _).
    rewrite (@run_returns _ _ _ _ _ _ _ _ E1 E2), E1. cbn [trace snd].
    rewrite !search_calls_app, !search_calls_value_effects.
    destruct llm; cbn [search_calls app]; rewrite ?app_nil_r; reflexivity.
  - rewrite (@run_faults _ _ llm _ _ _ E1), E1. cbn [trace snd].
    rewrite search_calls_app. cbn [search_calls]. apply app_nil_r.
Qed.

(** X5.  Each capability is invoked at most once in a run and is never
    retried: the search tool at most once, and then with the topic
    unchanged; the model at most once; a capability that is not there,
    never.  On a console that takes the researcher's lines, a search
    tool that is there is invoked exactly once, whether or not the call
    succeeds, and so is a model that is there. *)
Theorem capabilities_invoked_once
    (stdout : pystr -> outcome unit)
    (search_tool : option (pystr -> outcome json))
    (llm : option (pystr -> outcome pystr)) (subject : pystr) :
  let t := trace (run_research stdout search_tool llm subject) in
  (search_calls t = [] \/ search_calls t = [subject]) /\
  (List.length (llm_calls t) <= 1)%nat /\
  (search_tool = None -> search_calls t = []) /\
  (llm = None -> llm_calls t = []) /\
  (console_accepts stdout search_tool subject = true ->
   search_calls t = match search_tool with
                    | None => []
                    | Some _ => [subject]
                    end /\
   List.length (llm_calls t) = match llm with
                               | None => 0%nat
                               | Some _ => 1%nat
                               end).
Proof.
  intros t. subst t. rewrite run_search_calls, run_llm_calls.
  split.
  { destruct (research_node_shape stdout search_tool (initial_state subject))
      as (t1 & (_ & _ & S1) & [(ls1 & data & E1 & _)|(e & E1)]);
      rewrite E1; exact S1. }
  split.
  { destruct (result (research_node stdout search_tool
                        (initial_state subject))), llm; cbn; lia. }
  split; [intros ->; reflexivity|].
  split.
  { intros ->.
    destruct (result (research_node stdout search_tool
                        (initial_state subject))); reflexivity. }
  intros HC.
  destruct (@research_node_accepted stdout search_tool (initial_state subject)
              HC) as (ls1 & t1 & E1 & _ & _ & _ & S1 & _).
  rewrite E1. cbn [trace result fst snd].
  split; [exact S1|]. destruct llm; reflexivity.
Qed.

Lemma capabilities_invoked_once_witness :
  search_calls (trace (run_research Console.utf8
                         (Some Scenario.search_timeout)
                         (Some Scenario.llm_ok) Scenario.the_topic))
  = [py "quantum computing"] /\
  llm_calls (trace (run_research Console.utf8 (Some Scenario.search_timeout)
                      None Scenario.the_topic)) = [].
Proof.
  split.
  - exact (proj1 (proj2 (proj2 (proj2 (proj2
             (capabilities_invoked_once Console.utf8
                (Some Scenario.search_timeout) (Some Scenario.llm_ok)
                Scenario.the_topic)))) eq_refl)).
  - exact (proj1 (proj2 (proj2 (proj2
             (capabilities_invoked_once Console.utf8
                (Some Scenario.search_timeout) None
                Scenario.the_topic)))) eq_refl).
Defined.

(** X6.  The prompt the model receives is the fixed text of the prompt
    around the topic and exactly the [search_data] the researcher
    returned in the same run.  On a console that takes the researcher's
    lines that is: the serialised results, non-ASCII characters kept,
    after a successful search; the failure string after a failed one;
    the fixed string when there is no search tool. *)
Theorem prompt_carries_search_data
    (stdout : pystr -> outcome unit)
    (search_tool : option (pystr -> outcome json))
    (model : pystr -> outcome pystr) (subject : pystr) :
  (forall u1 t1,
     research_node stdout search_tool (initial_state subject) = (Ret u1, t1) ->
     exists data,
       upd_search_data u1 = Some data /\
       llm_calls (trace (run_research stdout search_tool (Some model) subject))
       = [prompt_text subject data]) /\
  (console_accepts stdout search_tool subject = true ->
   llm_calls (trace (run_research stdout search_tool (Some model) subject))
   = [prompt_text subject
        match search_tool with
        | None => py "No search data (tool failure)"
        | Some tool =>
          match tool subject with
          | Ret results => dumps false results
          | Raise e => py "Search Failed: " ++ exn_str e
          end
        end]).
Proof.
  split.
  - intros u1 t1 E1. rewrite run_llm_calls, E1. cbn [result fst].
    destruct (research_node_shape stdout search_tool (initial_state subject))
      as (t1' & _ & [(ls1 & data & E1' & _)|(e & E1')]);
      rewrite E1 in E1'; inversion E1'; subst.
    exists data. split; reflexivity.
  - intros HC. rewrite run_llm_calls.
    destruct (@research_node_accepted stdout search_tool
                (initial_state subject) HC) as (ls1 & t1 & E1 & _).
    rewrite E1. reflexivity.
Qed.

Lemma prompt_carries_search_data_witness :
  llm_calls (trace (run_research Console.utf8 (Some Scenario.search_timeout)
                      (Some Scenario.llm_ok) Scenario.the_topic))
  = [prompt_text (py "quantum computing") (py "Search Failed: timeout")].
Proof.
  exact (proj2 (prompt_carries_search_data Console.utf8
                  (Some Scenario.search_timeout) Scenario.llm_ok
                  Scenario.the_topic) eq_refl).
Defined.

(** X7.  The model is invoked only after the researcher has returned
    and after every log of the researcher has been yielded to the
    client: progress is streamed before the generation starts, and no
    search call comes after it. *)
Theorem researcher_logs_precede_generation
    (stdout : pystr -> outcome unit)
    (search_tool : option (pystr -> outcome json))
    (model : pystr -> outcome pystr) (subject : pystr)
    (u1 : StageUpdate) (t1 : list effect) :
  research_node stdout search_tool (initial_state subject) = (Ret u1, t1) ->
  exists before after ls1 data,
    upd_logs u1 = Some ls1 /\
    upd_search_data u1 = Some data /\
    trace (run_research stdout search_tool (Some model) subject)
      = before ++ LlmInvoke (prompt_text subject data) :: after /\
    serialises (map Log ls1) (yielded before) /\
    List.length ls1 = stage_logs search_tool /\
    llm_calls before = [] /\
    search_calls after = [] /\
    llm_calls after = [].
Proof.
  intros E1.
  destruct (research_node_shape stdout search_tool (initial_state subject))
    as (t1' & (V1 & C1 & _) & [(ls1 & data & E1' & L1)|(e & E1')]);
    rewrite E1 in E1'; inversion E1'; subst.
  destruct (writer_node_anatomy (Some model)
              (merge (initial_state subject) (research_update ls1 data)))
    as (ls2 & report & E2 & _ & _).
  rewrite (@run_returns _ _ _ _ _ _ _ _ E1 E2). cbn [trace snd].
  exists (t1' ++ value_effects (research_update ls1 data)),
         (value_effects (writer_update ls2 report) ++ [Yield sse_done]),
         ls1, data.
  split; [reflexivity|]. split; [reflexivity|].
  split; [rewrite <- app_assoc; reflexivity|].
  split.
  { rewrite yielded_app, <- (yielded_adapter_view t1'), V1.
    rewrite yielded_value_effects. unfold events_of.
    change (report_of (research_update ls1 data)) with (@nil pystr).
    change (logs_of (research_update ls1 data)) with ls1.
    cbn [map app]. rewrite app_nil_r. apply serialises_wire. }
  split; [exact L1|].
  split; [rewrite llm_calls_app, llm_calls_value_effects, C1; reflexivity|].
  split.
  - rewrite search_calls_app, search_calls_value_effects. reflexivity.
  - rewrite llm_calls_app, llm_calls_value_effects. reflexivity.
Qed.

Lemma researcher_logs_precede_generation_witness :
  exists before after,
    trace (run_research Console.utf8 (Some Scenario.search_ok)
             (Some Scenario.llm_ok) Scenario.the_topic)
      = before
          ++ LlmInvoke (prompt_text Scenario.the_topic
                          (dumps false Scenario.results)) :: after /\
    serialises [Log (Msg.search_start Scenario.the_topic); Log Msg.search_end]
      (yielded before).
Proof.
  destruct (@researcher_logs_precede_generation Console.utf8
              (Some Scenario.search_ok) Scenario.llm_ok Scenario.the_topic
              _ _ eq_refl)
    as (before & after & ls1 & data & L & D & T & S & _).
  inversion L. inversion D. subst ls1 data.
  exists before, after. split; [exact T|exact S].
Defined.

(** X8.  Every run yields exactly one sentinel and at most one Report.
    When the researcher returns, there is one Log per log entry of the
    two stages, between two and four, and the run is three to six chunks
    long; when an exception leaves the researcher, the run is one Log
    and the sentinel. *)
Theorem run_event_counts
    (stdout : pystr -> outcome unit)
    (search_tool : option (pystr -> outcome json))
    (llm : option (pystr -> outcome pystr)) (subject : pystr) :
  let chunks :=
    yielded (trace (run_research stdout search_tool llm subject)) in
  count_kind KDone chunks = 1%nat /\
  (count_kind KReport chunks <= 1)%nat /\
  List.length chunks
    = (count_kind KLog chunks + count_kind KReport chunks + 1)%nat /\
  match result (research_node stdout search_tool (initial_state subject)) with
  | Ret _ =>
    count_kind KLog chunks = (stage_logs search_tool + stage_logs llm)%nat /\
    (3 <= List.length chunks <= 6)%nat
  | Raise _ =>
    count_kind KLog chunks = 1%nat /\
    count_kind KReport chunks = 0%nat /\
    List.length chunks = 2%nat
  end.
Proof.
  intros chunks. subst chunks.
  pose proof (run_research_chunks stdout search_tool llm subject) as H.
  destruct (result (research_node stdout search_tool (initial_state subject)))
    as [u1|e].
  - destruct H as (ls1 & ls2 & rep & _ & L1 & L2 & Lr & E & _).
    rewrite E.
    rewrite !count_kind_app, !count_kind_logs, !count_kind_reports.
    rewrite !length_app, !length_map. cbn [kind_eqb List.length].
    assert (B1 : (1 <= stage_logs search_tool <= 2)%nat)
      by (destruct search_tool; cbn; lia).
    assert (B2 : (1 <= stage_logs llm <= 2)%nat) by (destruct llm; cbn; lia).
    change (count_kind KDone [sse_done]) with 1%nat.
    change (count_kind KReport [sse_done]) with 0%nat.
    change (count_kind KLog [sse_done]) with 0%nat.
    repeat split; lia.
  - destruct H as (E & _). rewrite E.
    change [sse_log (Msg.system_error (exn_str e)); sse_done]
      with (map wire [Log (Msg.system_error (exn_str e)); Done]).
    rewrite !count_kind_events. cbn. repeat split; lia.
Qed.

(** X9.  The time a run sleeps for pacing is 100 ms per Log of the two
    stages, between 200 and 400 ms, when the researcher returns; a run
    cut short by an exception of the researcher does not sleep. *)
Theorem run_pacing_total
    (stdout : pystr -> outcome unit)
    (search_tool : option (pystr -> outcome json))
    (llm : option (pystr -> outcome pystr)) (subject : pystr) :
  let slept :=
    total_sleep (trace (run_research stdout search_tool llm subject)) in
  match result (research_node stdout search_tool (initial_state subject)) with
  | Ret _ =>
    slept = (100 * N.of_nat (stage_logs search_tool + stage_logs llm))%N /\
    (200 <= slept <= 400)%N
  | Raise _ => slept = 0%N
  end.
Proof.
  intros slept. subst slept.
  rewrite <- total_sleep_adapter_view.
  pose proof (run_research_chunks stdout search_tool llm subject) as H.
  destruct (result (research_node stdout search_tool (initial_state subject)))
    as [u1|e].
  - destruct H as (ls1 & ls2 & rep & _ & L1 & L2 & _ & _ & A).
    rewrite A.
    assert (P : forall ls,
               total_sleep (paced_logs ls)
               = (100 * N.of_nat (List.length ls))%N).
    { induction ls as [|l ls IH]; [reflexivity|].
      change (paced_logs (l :: ls))
        with ([Yield (sse_log l); Sleep pacing_delay_ms] ++ paced_logs ls).
      rewrite total_sleep_app, IH. cbn [total_sleep List.length].
      unfold pacing_delay_ms. lia. }
    assert (Q : forall rs,
               total_sleep (map (fun r => Yield (sse_report r)) rs) = 0%N).
    { induction rs as [|r rs IH]; [reflexivity|exact IH]. }
    rewrite !total_sleep_app, P, Q, length_app, L1, L2.
    cbn [total_sleep].
    assert (B1 : (1 <= stage_logs search_tool <= 2)%nat)
      by (destruct search_tool; cbn; lia).
    assert (B2 : (1 <= stage_logs llm <= 2)%nat) by (destruct llm; cbn; lia).
    split; lia.
  - destruct H as (_ & A & _). rewrite A. reflexivity.
Qed.

(* ================================================================== *)
(** ** Further properties: from the environment to the stream *)
(* ================================================================== *)

(** The search handle, when the initialisation returns one that is set:
    the constructor returned it. *)
Lemma init_search_tool_returns stdout getenv TavilySearchResults h t :
  init_search_tool stdout getenv TavilySearchResults = (Ret h, t) ->
  match TavilySearchResults with
  | Ret tool => h = Some tool \/ h = None
  | Raise _ => h = None
  end.
Proof.
  unfold init_search_tool, construct, try_except, print.
  destruct (env_set getenv "TAVILY_API_KEY"); cbn [negb].
  - destruct TavilySearchResults as [tool|e]; cbn -[app].
    + intros E. inversion E. left. reflexivity.
    + destruct (stdout _); cbn; intros E; inversion E. reflexivity.
  - destruct (stdout _) as [[]|e1]; cbn -[app].
    + destruct TavilySearchResults as [tool|e]; cbn -[app].
      * intros E. inversion E. left. reflexivity.
      * destruct (stdout _); cbn; intros E; inversion E. reflexivity.
    + destruct (stdout _); cbn; intros E; inversion E.
      destruct TavilySearchResults; [right|]; reflexivity.
Qed.

Lemma startup_returns stdout getenv TavilySearchResults ChatGroq st llm t :
  startup stdout getenv TavilySearchResults ChatGroq = (Ret (st, llm), t) ->
  exists t1 t2,
    init_search_tool stdout getenv TavilySearchResults = (Ret st, t1) /\
    init_llm stdout getenv ChatGroq = (Ret llm, t2).
Proof.
  unfold startup.
  destruct (init_search_tool stdout getenv TavilySearchResults)
    as [[st'|e] t1]; [|rewrite bind_raise; discriminate].
  rewrite bind_ret.
  destruct (init_llm stdout getenv ChatGroq) as [[llm'|e] t2];
    [|rewrite bind_raise; discriminate].
  rewrite bind_ret. cbn. intros E. inversion E. subst.
  exists t1, t2. split; reflexivity.
Qed.

(** X10.  A process that got through its start-up without a usable
    model key (unset or empty) still serves: the model handle is [None],
    no request invokes the model, and a request whose researcher returns
    carries the fixed report on the misconfiguration before the
    sentinel.  Likewise, when the search tool's constructor raised, the
    search handle is [None], no request invokes the search, and every
    request starts with the researcher's error log. *)
Theorem degraded_startup_still_serves
    (stdout : pystr -> outcome unit)
    (getenv : string -> option pystr)
    (TavilySearchResults : outcome (pystr -> outcome json))
    (ChatGroq : outcome (pystr -> outcome pystr))
    (search_tool : option (pystr -> outcome json))
    (llm : option (pystr -> outcome pystr)) (t : list effect)
    (subject : pystr) :
  startup stdout getenv TavilySearchResults ChatGroq
    = (Ret (search_tool, llm), t) ->
  let run := run_research stdout search_tool llm subject in
  result run = Ret tt /\
  (env_set getenv "GROQ_API_KEY" = false ->
   llm = None /\
   llm_calls (trace run) = [] /\
   (console_accepts stdout search_tool subject = true ->
    exists ls,
      serialises
        (map Log ls
           ++ [Report
                 (py "## System Error" ++ [nl]
                    ++ py "Cannot generate report because LLM initialization failed."
                    ++ [nl; nl]
                    ++ py "Please check backend console logs to confirm `GROQ_API_KEY` is set correctly.");
               Done])
        (yielded (trace run)))) /\
  (forall e, TavilySearchResults = Raise e ->
   search_tool = None /\
   search_calls (trace run) = [] /\
   exists rest,
     serialises
       (Log (py "❌ Error: Search tool not initialized (check TAVILY_API_KEY)")
          :: rest ++ [Done])
       (yielded (trace run))).
Proof.
  intros S run. subst run.
  destruct (startup_returns _ _ _ _ S) as (t1 & t2 & I1 & I2).
  split; [apply run_research_result|]. split.
  - intros K. pose proof (init_llm_returns _ _ _ I2) as HL.
    rewrite K in HL. subst llm.
    split; [reflexivity|]. split.
    { rewrite run_llm_calls.
      destruct (result (research_node stdout search_tool
                          (initial_state subject))); reflexivity. }
    intros HC.
    destruct (@run_research_anatomy stdout search_tool None subject HC)
      as (ls1 & t1' & ls2 & report & R & _ & _ & _ & _ & V1 & _ & _ & _ & U2).
    destruct (U2 eq_refl) as [-> ->].
    rewrite R. cbn [trace snd].
    exists (ls1 ++ [Msg.llm_unavailable_log]).
    rewrite !yielded_app, <- (yielded_adapter_view t1'), V1.
    rewrite !yielded_value_effects.
    change (yielded [Yield sse_done]) with (map wire [Done]).
    change (yielded []) with (@nil pystr). cbn [app].
    rewrite <- !map_app.
    match goal with
    | |- serialises ?a (map wire ?b) =>
      replace a with b; [apply serialises_wire|]
    end.
    unfold events_of.
    change (report_of (research_update ls1 (research_payload search_tool subject)))
      with (@nil pystr).
    change (logs_of (research_update ls1 (research_payload search_tool subject)))
      with ls1.
    cbn [map app]. rewrite map_app, app_nil_r, <- !app_assoc. reflexivity.
  - intros e TE.
    pose proof (init_search_tool_returns _ _ _ I1) as HS.
    rewrite TE in HS. subst search_tool.
    split; [reflexivity|]. split.
    { rewrite run_search_calls. reflexivity. }
    destruct (writer_node_anatomy llm
                (merge (initial_state subject)
                   (research_update [Msg.search_unavailable_log]
                      Msg.search_unavailable)))
      as (ls2 & report & E2 & _ & _).
    pose proof (research_node_unavailable stdout (initial_state subject)) as E1.
    rewrite (@run_returns _ _ _ _ _ _ _ _ E1 E2). cbn [trace snd].
    exists (events_of (writer_update ls2 report)).
    rewrite !yielded_app, !yielded_value_effects.
    replace (yielded
               match llm with
               | Some _ =>
                 [LlmInvoke
                    (writer_prompt
                       (topic (merge (initial_state subject)
                                 (research_update [Msg.search_unavailable_log]
                                    Msg.search_unavailable)))
                       (search_data
                          (merge (initial_state subject)
                             (research_update [Msg.search_unavailable_log]
                                Msg.search_unavailable))))]
               | None => []
               end) with (@nil pystr) by (destruct llm; reflexivity).
    change (yielded [Yield sse_done]) with (map wire [Done]).
    cbn [app]. rewrite <- !map_app. apply serialises_wire.
Qed.

Lemma degraded_startup_still_serves_witness :
  let getenv := fun _ : string => @None pystr in
  let TavilySearchResults :=
    @Raise (pystr -> outcome json)
      (Exception "ValidationError" (py "Did not find tavily_api_key")) in
  let run := run_research Console.utf8 None None Scenario.the_topic in
  fst (startup Console.utf8 getenv TavilySearchResults (Ret Scenario.llm_ok))
    = Ret (None, None) /\
  llm_calls (trace run) = [] /\
  search_calls (trace run) = [].
Proof.
  intros getenv TavilySearchResults run.
  split; [reflexivity|].
  destruct (@degraded_startup_still_serves Console.utf8 getenv
              TavilySearchResults (Ret Scenario.llm_ok) None None _
              Scenario.the_topic eq_refl)
    as (_ & HL & HS).
  destruct (HL eq_refl) as (_ & L & _).
  destruct (HS _ eq_refl) as (_ & S & _).
  split; [exact L|exact S].
Defined.

(* ================================================================== *)
(** ** Further properties: the state *)
(* ================================================================== *)

Lemma merge_all_snoc (s : AgentState) (us : list StageUpdate) (u : StageUpdate) :
  merge_all s (us ++ [u]) = merge (merge_all s us) u.
Proof. unfold merge_all. rewrite fold_left_app. reflexivity. Qed.

(** X11.  Over any sequence of updates the logs only grow, by the logs of
    each update in the order of the updates; [search_data] keeps its
    value as long as no update carries it, and afterwards holds what the
    last update carrying it wrote. *)
Theorem merge_all_accumulates (s : AgentState) (us : list StageUpdate) :
  logs (merge_all s us) = logs s ++ flat_map logs_of us /\
  (Forall (fun u => upd_search_data u = None) us ->
   search_data (merge_all s us) = search_data s) /\
  (forall before u after v,
     us = before ++ u :: after ->
     upd_search_data u = Some v ->
     Forall (fun u' => upd_search_data u' = None) after ->
     search_data (merge_all s us) = v).
Proof.
  assert (L : forall us s,
             logs (merge_all s us) = logs s ++ flat_map logs_of us).
  { clear. intros us. induction us as [|u us IH]; intros s.
    - cbn. rewrite app_nil_r. reflexivity.
    - cbn [merge_all fold_left flat_map]. fold (merge_all (merge s u) us).
      rewrite IH, app_assoc. f_equal.
      unfold merge, logs_of, reduce, operator_add. cbn.
      destruct (upd_logs u); [reflexivity|]. rewrite app_nil_r. reflexivity. }
  assert (K : forall us s,
             Forall (fun u => upd_search_data u = None) us ->
             search_data (merge_all s us) = search_data s).
  { clear. intros us. induction us as [|u us IH]; intros s H; [reflexivity|].
    inversion H as [|x xs Hu Hus]; subst.
    cbn [merge_all fold_left]. fold (merge_all (merge s u) us).
    rewrite (IH _ Hus). unfold merge. cbn. rewrite Hu. reflexivity. }
  split; [apply L|]. split; [apply K|].
  intros before u after v E Hu Ha. subst us.
  unfold merge_all. rewrite fold_left_app. cbn [fold_left].
  fold (merge_all s before).
  fold (merge_all (merge (merge_all s before) u) after).
  rewrite (K _ _ Ha). unfold merge. cbn. rewrite Hu. reflexivity.
Qed.

Lemma merge_all_accumulates_witness :
  let s := initial_state Scenario.the_topic in
  let u1 := research_update [py "a"; py "b"] (py "payload") in
  let u2 := writer_update [py "c"] (py "text") in
  upd_search_data u1 = Some (py "payload") /\
  Forall (fun u' => upd_search_data u' = None) [u2] /\
  logs (merge_all s [u1; u2]) = [py "a"; py "b"; py "c"] /\
  search_data (merge_all s [u1; u2]) = py "payload".
Proof.
  intros s u1 u2.
  destruct (merge_all_accumulates s [u1; u2]) as (HL & _ & HS).
  split; [reflexivity|].
  assert (F : Forall (fun u' => upd_search_data u' = None) [u2])
    by (repeat constructor).
  split; [exact F|]. split; [exact HL|].
  exact (HS [] u1 [u2] _ eq_refl eq_refl F).
Defined.

(** X12.  The researcher reads nothing of the state but the topic, and
    the writer nothing but the topic and [search_data]; an update the
    researcher returns writes [logs] and [search_data] only, the update
    of the writer, which always returns one, [logs] and [final_report]
    only.  So no stage changes the topic, and each of [search_data] and
    [final_report] has a single writer. *)
Theorem stage_contracts
    (stdout : pystr -> outcome unit)
    (search_tool : option (pystr -> outcome json))
    (llm : option (pystr -> outcome pystr)) (s1 s2 : AgentState) :
  (topic s1 = topic s2 ->
   research_node stdout search_tool s1 = research_node stdout search_tool s2)
  /\
  (topic s1 = topic s2 -> search_data s1 = search_data s2 ->
   writer_node llm s1 = writer_node llm s2) /\
  (forall u t,
     research_node stdout search_tool s1 = (Ret u, t) ->
     upd_topic u = None /\ upd_final_report u = None /\
     upd_logs u <> None /\ upd_search_data u <> None /\
     topic (merge s1 u) = topic s1 /\
     final_report (merge s1 u) = final_report s1) /\
  (exists u t,
     writer_node llm s1 = (Ret u, t) /\
     upd_topic u = None /\ upd_search_data u = None /\
     upd_logs u <> None /\ upd_final_report u <> None /\
     topic (merge s1 u) = topic s1 /\
     search_data (merge s1 u) = search_data s1).
Proof.
  split; [|split; [|split]].
  - intros H. unfold research_node. rewrite H. reflexivity.
  - intros H1 H2. unfold writer_node. rewrite H1, H2. reflexivity.
  - intros u t E.
    destruct (research_node_shape stdout search_tool s1)
      as (t' & _ & [(ls & data & E' & _)|(e & E')]);
      rewrite E in E'; inversion E'; subst.
    repeat split; discriminate.
  - destruct (writer_node_anatomy llm s1) as (ls & report & E & _).
    exists (writer_update ls report). eexists.
    split; [exact E|]. repeat split; discriminate.
Qed.

Lemma stage_contracts_witness :
  let s1 := initial_state Scenario.the_topic in
  let s2 := {| topic := Scenario.the_topic; logs := [py "earlier"];
               search_data := py "x"; final_report := py "y" |} in
  topic s1 = topic s2 /\
  research_node Console.utf8 (Some Scenario.search_ok) s1
  = research_node Console.utf8 (Some Scenario.search_ok) s2.
Proof.
  intros s1 s2. split; [reflexivity|].
  exact (proj1 (stage_contracts Console.utf8 (Some Scenario.search_ok)
                  (Some Scenario.llm_ok) s1 s2) eq_refl).
Defined.

(** X13.  In a run whose researcher returns, when the sentinel arrives
    the client has received exactly what the state of the run holds: the
    logs of the final state, in order, as Log events, then its report as
    a Report event if it is not empty.  In that state the topic is the
    one of the request and [search_data] is what the researcher handed
    on. *)
Theorem stream_mirrors_final_state
    (stdout : pystr -> outcome unit)
    (search_tool : option (pystr -> outcome json))
    (llm : option (pystr -> outcome pystr)) (subject : pystr)
    (u1 : StageUpdate) (t1 : list effect) :
  research_node stdout search_tool (initial_state subject) = (Ret u1, t1) ->
  exists u2 t2,
    writer_node llm (merge (initial_state subject) u1) = (Ret u2, t2) /\
    let final := merge_all (initial_state subject) [u1; u2] in
    topic final = subject /\
    upd_search_data u1 = Some (search_data final) /\
    serialises
      (map Log (logs final)
         ++ (if truthy (final_report final)
             then [Report (final_report final)] else [])
         ++ [Done])
      (yielded (trace (run_research stdout search_tool llm subject))).
Proof.
  intros E1.
  destruct (research_node_shape stdout search_tool (initial_state subject))
    as (t1' & (V1 & _) & [(ls1 & data & E1' & _)|(e & E1')]);
    rewrite E1 in E1'; inversion E1'; subst.
  destruct (writer_node_anatomy llm
              (merge (initial_state subject) (research_update ls1 data)))
    as (ls2 & report & E2 & _ & _).
  exists (writer_update ls2 report). eexists.
  split; [exact E2|]. cbv zeta.
  split; [reflexivity|]. split; [reflexivity|].
  rewrite (@run_returns _ _ _ _ _ _ _ _ E1 E2). cbn [trace snd].
  rewrite !yielded_app, <- (yielded_adapter_view t1'), V1.
  rewrite !yielded_value_effects.
  replace (yielded
             match llm with
             | Some _ =>
               [LlmInvoke
                  (writer_prompt
                     (topic (merge (initial_state subject)
                               (research_update ls1 data)))
                     (search_data
                        (merge (initial_state subject)
                           (research_update ls1 data))))]
             | None => []
             end) with (@nil pystr) by (destruct llm; reflexivity).
  change (yielded [Yield sse_done]) with (map wire [Done]).
  change (yielded []) with (@nil pystr).
  cbn [app]. rewrite <- !map_app.
  match goal with
  | |- serialises ?a (map wire ?b) =>
    replace a with b; [apply serialises_wire|]
  end.
  unfold events_of.
  change (logs (merge_all (initial_state subject)
                  [research_update ls1 data; writer_update ls2 report]))
    with (ls1 ++ ls2).
  change (final_report (merge_all (initial_state subject)
                          [research_update ls1 data; writer_update ls2 report]))
    with report.
  change (report_of (research_update ls1 data)) with (@nil pystr).
  change (logs_of (research_update ls1 data)) with ls1.
  change (logs_of (writer_update ls2 report)) with ls2.
  change (report_of (writer_update ls2 report))
    with (if truthy report then [report] else []).
  rewrite map_app. cbn [map app]. rewrite app_nil_r, <- !app_assoc.
  destruct (truthy report); reflexivity.
Qed.

Lemma stream_mirrors_final_state_witness :
  serialises
    [Log (py "⚠️ Search Error: timeout");
     Log (py "✅ Researcher: Latest data retrieved.");
     Log (py "✍️ Writer: Llama 3.3 is drafting the report...");
     Log (py "✅ Writer: Report generated.");
     Report Scenario.text; Done]
    (yielded (trace (run_research Console.utf8 (Some Scenario.search_timeout)
                       (Some Scenario.llm_ok) Scenario.the_topic))).
Proof.
  destruct (@stream_mirrors_final_state Console.utf8
              (Some Scenario.search_timeout) (Some Scenario.llm_ok)
              Scenario.the_topic _ _ eq_refl)
    as (u2 & t2 & E2 & _ & _ & S).
  vm_compute in E2. inversion E2. subst u2. exact S.
Defined.

(* ================================================================== *)
(** ** Further properties: a search failure the console can print *)
(* ================================================================== *)

(** X16.  When the search call raises and the console takes the two
    lines the researcher prints, the failure stays in the stage: the
    researcher returns, its [search_data] is ["Search Failed: "]
    followed by the text of the exception, the writer runs on a state
    that carries that string, a model that is there is invoked with the
    prompt built around it, and the run ends normally. *)
Theorem search_failure_absorbed
    (stdout : pystr -> outcome unit)
    (tool : pystr -> outcome json) (subject : pystr) (e : exn) :
  stdout (py "🔍 Searching via Tavily: " ++ subject) = Ret tt ->
  tool subject = Raise e ->
  stdout (py "⚠️ Search failed: " ++ exn_str e) = Ret tt ->
  let state := initial_state subject in
  let sentinel := py "Search Failed: " ++ exn_str e in
  let u1 := research_update
              [py "⚠️ Search Error: " ++ exn_str e;
               py "✅ Researcher: Latest data retrieved."]
              sentinel in
  research_node stdout (Some tool) state
  = (Ret u1,
     [Console (py "🔍 Searching via Tavily: " ++ subject);
      SearchInvoke subject;
      Console (py "⚠️ Search failed: " ++ exn_str e)]) /\
  search_data (merge state u1) = sentinel /\
  (forall llm body,
     astream (workflow stdout (Some tool) llm) state body
     = (u <- research_node stdout (Some tool) state ;;
        body [("researcher"%string, u)] ;;
        u2 <- writer_node llm (merge state u1) ;;
        body [("writer"%string, u2)] ;;
        ret tt)) /\
  (forall llm,
     result (run_research stdout (Some tool) llm subject) = Ret tt) /\
  (forall model,
     llm_calls (trace (run_research stdout (Some tool) (Some model) subject))
     = [prompt_text subject sentinel]).
Proof.
  intros H1 H2 H3 state sentinel u1.
  assert (P1 : returns (stdout (Msg.searching_line (topic state))) = true).
  { change (stdout (Msg.searching_line (topic state)))
      with (stdout (py "🔍 Searching via Tavily: " ++ subject)).
    rewrite H1. reflexivity. }
  assert (P3 : returns (stdout (Msg.search_failed_line (exn_str e))) = true).
  { change (stdout (Msg.search_failed_line (exn_str e)))
      with (stdout (py "⚠️ Search failed: " ++ exn_str e)).
    rewrite H3. reflexivity. }
  pose proof (@research_node_failure stdout tool state e P1 H2 P3) as E1.
  split; [exact E1|]. split; [reflexivity|].
  split; [|split].
  - intros llm body. rewrite astream_workflow, E1, !bind_ret. reflexivity.
  - intros llm. apply run_research_result.
  - intros model. rewrite run_llm_calls. fold state. rewrite E1. reflexivity.
Qed.

Lemma search_failure_absorbed_witness :
  Scenario.search_timeout Scenario.the_topic
    = Raise (Exception "ConnectionError" (py "timeout")) /\
  search_data
    (merge (initial_state Scenario.the_topic)
       (research_update
          [py "⚠️ Search Error: timeout";
           py "✅ Researcher: Latest data retrieved."]
          (py "Search Failed: timeout")))
  = py "Search Failed: timeout" /\
  llm_calls (trace (run_research Console.utf8 (Some Scenario.search_timeout)
                      (Some Scenario.llm_ok) Scenario.the_topic))
  = [prompt_text (py "quantum computing") (py "Search Failed: timeout")].
Proof.
  split; [reflexivity|].
  destruct (@search_failure_absorbed Console.utf8 Scenario.search_timeout
              Scenario.the_topic
              (Exception "ConnectionError" (py "timeout"))
              eq_refl eq_refl eq_refl)
    as (_ & D & _ & _ & L).
  split; [exact D|exact (L Scenario.llm_ok)].
Defined.
